(** * stellantis-oauth-helper: the OAuth helper of [oauth_helper.py]

    A shallow embedding of the selector screen, the embedded browser's
    navigation hook and the start-up path of [oauth_helper.py], with the parts
    of CPython's [urllib.parse] and of Qt that these call.

    Conventions.
    - A Python [str] is a [string] holding its UTF-8 bytes.  Prefix tests,
      search for and splitting at ASCII characters and lexicographic
      comparison agree on code points and on UTF-8 bytes.
    - A [dict] whose iteration order the program observes is an association
      list in insertion order; the [dict] built by [parse_qs], which is only
      looked up, is a [gmap].
    - Exceptions are values of [exn]; fallible code returns a [result]. *)

From Stdlib Require Import Ascii NArith ZArith.
From stdpp Require Import base option list strings gmap sorting pretty.

(** ** Exceptions and results *)

Inductive exn :=
  | KeyError (key : string)
  | ValueError
  | IndexError
  | OtherException (what : string)
  | SystemExit (status : Z).

Inductive result (A : Type) :=
  | Ok (a : A)
  | Raise (e : exn).
Arguments Ok {A} a.
Arguments Raise {A} e.

Global Instance result_ret : MRet result := λ A a, Ok a.

Global Instance result_bind : MBind result := λ A B k r,
  match r with
  | Ok a => k a
  | Raise e => Raise e
  end.

Global Instance result_fmap : FMap result := λ A B f r,
  match r with
  | Ok a => Ok (f a)
  | Raise e => Raise e
  end.

Definition is_Ok {A} (r : result A) : Prop :=
  match r with Ok _ => True | Raise _ => False end.

(** What the model leaves to the Python runtime: Unicode case mapping, and
    the checks of a network location that need the [ipaddress] module or the
    NFKC tables. *)
Class Runtime := {
  (** [str.lower] *)
  str_lower : string → string;
  (** [_check_bracketed_netloc] and [_checknetloc] of [urllib.parse], on a
      netloc that has a bracket pair or a non-ASCII character: [false] when
      they raise [ValueError]. *)
  netloc_ok : string → bool
}.

(** ** Methods of [str] *)
Module Str.

Definition code (c : ascii) : N := N_of_ascii c.

Definition eqc (a b : ascii) : bool := bool_decide (a = b).

(** [s.startswith(p)] *)
Fixpoint startswith (s p : string) {struct p} : bool :=
  match p with
  | "" => true
  | String a p' =>
      match s with
      | "" => false
      | String b s' => eqc a b && startswith s' p'
      end
  end.

(** [c in s] for a one-character [c] *)
Fixpoint contains (c : ascii) (s : string) : bool :=
  match s with
  | "" => false
  | String a s' => eqc c a || contains c s'
  end.

(** [s.partition(c)]: the text before the first [c], and the text after it
    when there is one. *)
Fixpoint partition (c : ascii) (s : string) : string * option string :=
  match s with
  | "" => ("", None)
  | String a s' =>
      if eqc c a then ("", Some s')
      else let '(h, t) := partition c s' in (String a h, t)
  end.

(** [s.split(c)] *)
Fixpoint split (c : ascii) (s : string) : list string :=
  match s with
  | "" => [""]
  | String a s' =>
      if eqc c a then "" :: split c s'
      else match split c s' with
           | h :: t => String a h :: t
           | [] => [String a ""]
           end
  end.

(** [s.replace(a, b)] for one-character [a] and [b] *)
Fixpoint replace (a b : ascii) (s : string) : string :=
  match s with
  | "" => ""
  | String c s' => String (if eqc a c then b else c) (replace a b s')
  end.

(** [s.replace(a, "")] *)
Fixpoint remove (a : ascii) (s : string) : string :=
  match s with
  | "" => ""
  | String c s' => if eqc a c then remove a s' else String c (remove a s')
  end.

(** [s.lstrip(chars)], for the set of characters that [p] accepts *)
Fixpoint lstrip (p : ascii → bool) (s : string) : string :=
  match s with
  | "" => ""
  | String c s' => if p c then lstrip p s' else s
  end.

Fixpoint forallb (p : ascii → bool) (s : string) : bool :=
  match s with
  | "" => true
  | String c s' => p c && forallb p s'
  end.

Definition isascii (c : ascii) : bool := (code c <? 128)%N.
Definition isupper (c : ascii) : bool := (65 <=? code c)%N && (code c <=? 90)%N.
Definition islower (c : ascii) : bool := (97 <=? code c)%N && (code c <=? 122)%N.
Definition isalpha (c : ascii) : bool := isupper c || islower c.
Definition isdigit (c : ascii) : bool := (48 <=? code c)%N && (code c <=? 57)%N.

(** [str.lower] on a string of ASCII characters *)
Definition lower_ascii_char (c : ascii) : ascii :=
  if isupper c then ascii_of_N (code c + 32) else c.

Fixpoint lower_ascii (s : string) : string :=
  match s with
  | "" => ""
  | String c s' => String (lower_ascii_char c) (lower_ascii s')
  end.

(** The characters that [str.isspace] accepts, in UTF-8: U+0009 to U+000D,
    U+001C to U+0020; U+0085 and U+00A0; U+1680, U+2000 to U+200A, U+2028,
    U+2029, U+202F, U+205F and U+3000. *)
Definition space1 (a : ascii) : bool :=
  (9 <=? code a)%N && (code a <=? 13)%N || (28 <=? code a)%N && (code a <=? 32)%N.

Definition space2 (a b : ascii) : bool :=
  (code a =? 194)%N && ((code b =? 133)%N || (code b =? 160)%N).

Definition space3 (a b c : ascii) : bool :=
  (code a =? 225)%N && (code b =? 154)%N && (code c =? 128)%N
  || (code a =? 226)%N && (code b =? 128)%N
     && ((128 <=? code c)%N && (code c <=? 138)%N
         || (code c =? 168)%N || (code c =? 169)%N || (code c =? 175)%N)
  || (code a =? 226)%N && (code b =? 129)%N && (code c =? 159)%N
  || (code a =? 227)%N && (code b =? 128)%N && (code c =? 128)%N.

(** [s.lstrip()] *)
Fixpoint lstrip_space (s : string) : string :=
  match s with
  | "" => ""
  | String a s1 =>
      if space1 a then lstrip_space s1
      else match s1 with
           | String b s2 =>
               if space2 a b then lstrip_space s2
               else match s2 with
                    | String c s3 => if space3 a b c then lstrip_space s3 else s
                    | "" => s
                    end
           | "" => s
           end
  end.

(** [s.rstrip()], on the reversed string: the last byte of a character
    comes first. *)
Fixpoint rstrip_space_rev (s : string) : string :=
  match s with
  | "" => ""
  | String c s1 =>
      if space1 c then rstrip_space_rev s1
      else match s1 with
           | String b s2 =>
               if space2 b c then rstrip_space_rev s2
               else match s2 with
                    | String a s3 => if space3 a b c then rstrip_space_rev s3 else s
                    | "" => s
                    end
           | "" => s
           end
  end.

(** [s.strip()] *)
Definition strip (s : string) : string :=
  lstrip_space (String.rev (rstrip_space_rev (String.rev s))).

(** [l[0]] *)
Definition item0 {A} (l : list A) : result A :=
  match l with
  | x :: _ => Ok x
  | [] => Raise IndexError
  end.

End Str.

(** ** [urllib.parse] *)
Module urllib.

Record SplitResult := {
  split_scheme : string;
  split_netloc : string;
  split_path : string;
  split_query : string;
  split_fragment : string
}.

Record ParseResult := {
  scheme : string;
  netloc : string;
  path : string;
  params : string;
  query : string;
  fragment : string
}.

(** [_WHATWG_C0_CONTROL_OR_SPACE]: the characters up to the space *)
Definition c0_control_or_space (c : ascii) : bool := (Str.code c <=? 32)%N.

(** [_UNSAFE_URL_BYTES_TO_REMOVE = ['\t', '\r', '\n']] *)
Definition remove_unsafe (url : string) : string :=
  Str.remove "010"%char (Str.remove "013"%char (Str.remove "009"%char url)).

(** [scheme_chars]: the ASCII letters and digits and ["+-."] *)
Definition scheme_char (c : ascii) : bool :=
  Str.isalpha c || Str.isdigit c || Str.contains c "+-.".

(** [_splitnetloc(url, 2)], on the text after the leading ["//"]: the
    netloc runs up to the first of ['/'], ['?'] and ['#']. *)
Fixpoint splitnetloc (s : string) : string * string :=
  match s with
  | "" => ("", "")
  | String c s' =>
      if Str.contains c "/?#" then ("", s)
      else let '(n, rest) := splitnetloc s' in (String c n, rest)
  end.

Section checks.
Context `{Runtime}.

(** The checks of the netloc: a bracket without its partner is refused;
    a bracket pair goes to [_check_bracketed_netloc] and a non-ASCII
    netloc to the NFKC scan of [_checknetloc], both left to the runtime.
    An empty or plain ASCII netloc passes. *)
Definition check_netloc (n : string) : bool :=
  let lb := Str.contains "["%char n in
  let rb := Str.contains "]"%char n in
  if xorb lb rb then false
  else if lb || negb (Str.forallb Str.isascii n) then netloc_ok n
  else true.

(** [urlsplit(url)], with [scheme=''] and [allow_fragments=True] *)
Definition urlsplit (url : string) : result SplitResult :=
  let url := Str.lstrip c0_control_or_space url in
  let url := remove_unsafe url in
  let '(scheme, url) :=
    match Str.partition ":"%char url with
    | (String c0 _ as head, Some rest) =>
        if Str.isascii c0 && Str.isalpha c0 && Str.forallb scheme_char head
        then (Str.lower_ascii head, rest)
        else ("", url)
    | _ => ("", url)
    end in
  let '(netloc, url) :=
    match url with
    | String "/" (String "/" after) => splitnetloc after
    | _ => ("", url)
    end in
  if negb (check_netloc netloc) then Raise ValueError
  else
    let '(url, fragment) :=
      match Str.partition "#"%char url with
      | (h, Some t) => (h, t)
      | (_, None) => (url, "")
      end in
    let '(url, query) :=
      match Str.partition "?"%char url with
      | (h, Some t) => (h, t)
      | (_, None) => (url, "")
      end in
    Ok {| split_scheme := scheme; split_netloc := netloc; split_path := url;
          split_query := query; split_fragment := fragment |}.

(** [uses_params] *)
Definition uses_params : list string :=
  [""; "ftp"; "hdl"; "prospero"; "http"; "imap"; "https"; "shttp"; "rtsp";
   "rtspu"; "sip"; "sips"; "mms"; "sftp"; "tel"].

(** [_splitparams]: the parameters start at the first [';'] of the last
    path segment. *)
Fixpoint splitparams (url : string) : string * string :=
  match url with
  | "" => ("", "")
  | String c url' =>
      if Str.contains "/"%char url'
      then let '(p, q) := splitparams url' in (String c p, q)
      else match Str.partition ";"%char url with
           | (h, Some t) => (h, t)
           | (_, None) => (url, "")
           end
  end.

(** [urlparse(url)]: [urlsplit], and the parameters split off the path *)
Definition urlparse (url : string) : result ParseResult :=
  r ← urlsplit url;
  let '(url, params) :=
    if bool_decide (split_scheme r ∈ uses_params)
       && Str.contains ";"%char (split_path r)
    then splitparams (split_path r)
    else (split_path r, "") in
  mret {| scheme := split_scheme r; netloc := split_netloc r; path := url;
          params := params; query := split_query r;
          fragment := split_fragment r |}.
End checks.

(** [_hexdig = '0123456789ABCDEFabcdef'] *)
Definition hexval (c : ascii) : option N :=
  let n := Str.code c in
  if Str.isdigit c then Some (n - 48)%N
  else if (65 <=? n)%N && (n <=? 70)%N then Some (n - 55)%N
  else if (97 <=? n)%N && (n <=? 102)%N then Some (n - 87)%N
  else None.

(** [_unquote_impl]: a ['%'] followed by two hexadecimal digits is the byte
    they write; any other ['%'] stays. *)
Fixpoint unquote_to_bytes (s : string) : string :=
  match s with
  | "" => ""
  | String c s' =>
      if Str.eqc c "%"%char then
        match s' with
        | String a (String b rest) =>
            match hexval a, hexval b with
            | Some h, Some l =>
                String (ascii_of_N (16 * h + l)) (unquote_to_bytes rest)
            | _, _ => String c (unquote_to_bytes s')
            end
        | _ => String c (unquote_to_bytes s')
        end
      else String c (unquote_to_bytes s')
  end.

(** U+FFFD in UTF-8 *)
Definition replacement : string :=
  String (ascii_of_N 239) (String (ascii_of_N 191) (String (ascii_of_N 189) "")).

Definition is_cont (c : ascii) : bool :=
  (128 <=? Str.code c)%N && (Str.code c <=? 191)%N.

(** The second byte of a three-byte sequence: no overlong form after E0,
    no surrogate after ED. *)
Definition second_of_3 (b0 b1 : ascii) : bool :=
  is_cont b1 &&
  negb (if (Str.code b1 <? 160)%N then (Str.code b0 =? 224)%N
        else (Str.code b0 =? 237)%N).

(** The second byte of a four-byte sequence: no overlong form after F0,
    nothing above U+10FFFF after F4. *)
Definition second_of_4 (b0 b1 : ascii) : bool :=
  is_cont b1 &&
  negb (if (Str.code b1 <? 144)%N then (Str.code b0 =? 240)%N
        else (Str.code b0 =? 244)%N).

(** [bytes.decode('utf-8', 'replace')], read back as UTF-8: well-formed
    sequences stay, and each ill-formed one (the longest prefix of a
    sequence that is still well-formed, or else one byte) becomes U+FFFD. *)
Fixpoint decode_replace (s : string) : string :=
  match s with
  | "" => ""
  | String b0 t0 =>
      let n := Str.code b0 in
      if (n <? 128)%N then String b0 (decode_replace t0)
      else if (n <? 194)%N then replacement +:+ decode_replace t0
      else if (n <? 224)%N then
        match t0 with
        | "" => replacement
        | String b1 t1 =>
            if is_cont b1 then String b0 (String b1 (decode_replace t1))
            else replacement +:+ decode_replace t0
        end
      else if (n <? 240)%N then
        match t0 with
        | "" => replacement
        | String b1 t1 =>
            if second_of_3 b0 b1 then
              match t1 with
              | "" => replacement
              | String b2 t2 =>
                  if is_cont b2
                  then String b0 (String b1 (String b2 (decode_replace t2)))
                  else replacement +:+ decode_replace t1
              end
            else replacement +:+ decode_replace t0
        end
      else if (n <? 245)%N then
        match t0 with
        | "" => replacement
        | String b1 t1 =>
            if second_of_4 b0 b1 then
              match t1 with
              | "" => replacement
              | String b2 t2 =>
                  if is_cont b2 then
                    match t2 with
                    | "" => replacement
                    | String b3 t3 =>
                        if is_cont b3
                        then String b0 (String b1 (String b2
                               (String b3 (decode_replace t3))))
                        else replacement +:+ decode_replace t2
                    end
                  else replacement +:+ decode_replace t1
              end
            else replacement +:+ decode_replace t0
        end
      else replacement +:+ decode_replace t0
  end.

(** [_generate_unquoted_parts]: each maximal run of ASCII characters is
    unquoted and decoded; the characters between the runs are kept. *)
Fixpoint unquoted_parts (run s : string) : string :=
  match s with
  | "" => decode_replace (unquote_to_bytes run)
  | String c s' =>
      if Str.isascii c then unquoted_parts (run +:+ String c "") s'
      else decode_replace (unquote_to_bytes run)
             +:+ String c (unquoted_parts "" s')
  end.

(** [unquote(string)], with [encoding='utf-8'] and [errors='replace'] *)
Definition unquote (s : string) : string :=
  if Str.contains "%"%char s then unquoted_parts "" s else s.

(** [parse_qsl(qs)], with [keep_blank_values=False],
    [strict_parsing=False] and [separator='&'] *)
Definition parse_field (name_value : string) : list (string * string) :=
  match name_value with
  | "" => []
  | _ =>
      match Str.partition "="%char name_value with
      | (_, None) => []
      | (_, Some "") => []
      | (name, Some value) =>
          [(unquote (Str.replace "+"%char " "%char name),
            unquote (Str.replace "+"%char " "%char value))]
      end
  end.

Definition parse_qsl (qs : string) : list (string * string) :=
  concat (parse_field <$> Str.split "&"%char qs).

(** [parse_qs(qs)] *)
Definition parse_qs_add (parsed_result : gmap string (list string))
    (pair : string * string) : gmap string (list string) :=
  let '(name, value) := pair in
  match parsed_result !! name with
  | Some values => <[name := values ++ [value]]> parsed_result
  | None => <[name := [value]]> parsed_result
  end.

Definition parse_qs (qs : string) : gmap string (list string) :=
  foldl parse_qs_add ∅ (parse_qsl qs).

End urllib.

(** ** The configuration document

    [{ brand: { "oauth_url": str, "scheme": str,
                "configs": { country: { "locale": str, "client_id": str } } } }]
    Every key of an entry may be missing. *)

Definition dict (V : Type) : Type := list (string * V).

(** [d.keys()], in insertion order *)
Definition keys {V} (d : dict V) : list string := d.*1.

(** [d.get(k)] *)
Fixpoint get {V} (d : dict V) (k : string) : option V :=
  match d with
  | [] => None
  | (k', v) :: d' => if decide (k = k') then Some v else get d' k
  end.

(** [d[k]] *)
Definition getitem {V} (d : dict V) (k : string) : result V :=
  match get d k with
  | Some v => Ok v
  | None => Raise (KeyError k)
  end.

(** [entry[k]] for a key [k] of the entries' schema *)
Definition field {V} (k : string) (entry : option V) : result V :=
  match entry with
  | Some v => Ok v
  | None => Raise (KeyError k)
  end.

Record CountryConfig := {
  locale : option string;
  client_id : option string
}.

Record VendorConfig := {
  oauth_url : option string;
  scheme : option string;
  configs : option (dict CountryConfig)
}.

(** ** Output: console lines, dialogs and windows

    A text of [STRINGS] is kept as its key, [t(key).format(arg)] as the key
    and the argument. *)

Inductive arg :=
  | ArgStr (s : string)
  | ArgExn (e : exn)
  | ArgConfigs (data : dict VendorConfig).

Inductive text :=
  | T (key : string)
  | TFormat (key : string) (a : arg)
  | Literal (s : string).

Inductive window :=
  | SelectorWindow
  | BrowserWindow (auth_url : string)
  | PopupWindow (code : string).

Inductive event :=
  | Printed (line : text)
  | Critical (title message : text)
  | Shown (w : window)
  | Closed (w : window)
  | QtFatal (message : string).

(** How a piece of the start-up script ends: it returns or raises, or Qt
    aborts the process. *)
Inductive completion (A : Type) :=
  | Completes (r : result A)
  | Aborts.
Arguments Completes {A} r.
Arguments Aborts {A}.

(** ** Qt *)
Module Qt.

Record QUrl := { toString : string }.

Inductive NavigationType :=
  | NavigationTypeLinkClicked
  | NavigationTypeTyped
  | NavigationTypeFormSubmitted
  | NavigationTypeBackForward
  | NavigationTypeReload
  | NavigationTypeOther
  | NavigationTypeRedirect.

(** [QWebEnginePage::acceptNavigationRequest]: the base class accepts
    every request. *)
Definition QWebEnginePage_acceptNavigationRequest
    (url : QUrl) (type : NavigationType) (isMainFrame : bool) : bool := true.

(** A [QComboBox] that is not editable: its items and the current index,
    [None] for Qt's [-1]. *)
Record QComboBox := {
  items : list string;
  currentIndex : option nat
}.

Definition QComboBox_new : QComboBox := {| items := []; currentIndex := None |}.

Definition clear (c : QComboBox) : QComboBox := QComboBox_new.

(** [setCurrentIndex(i)]: an index outside the items leaves none selected. *)
Definition setCurrentIndex (i : nat) (c : QComboBox) : QComboBox :=
  {| items := items c;
     currentIndex := if decide (i < length (items c)) then Some i else None |}.

(** [addItems(texts)]: the first items put into an empty box select
    index 0. *)
Definition addItems (texts : list string) (c : QComboBox) : QComboBox :=
  match texts with
  | [] => c
  | _ :: _ =>
      {| items := items c ++ texts;
         currentIndex :=
           match items c, currentIndex c with
           | [], None => Some 0
           | _, i => i
           end |}
  end.

(** [currentText()]: the empty string when nothing is selected *)
Definition currentText (c : QComboBox) : string :=
  match currentIndex c with
  | Some i => default "" (items c !! i)
  | None => ""
  end.

(** [QMessageBox.critical(parent, title, text)].  A widget can only be
    constructed once the [QApplication] exists ([qapp]); before that Qt
    stops the process with [qFatal]. *)
Definition QMessageBox_critical (qapp : bool) (title message : text)
    : completion () * list event :=
  if qapp then (Completes (Ok ()), [Critical title message])
  else (Aborts, [QtFatal "QWidget: Must construct a QApplication before a QWidget"]).

End Qt.

(** ** The program *)

(** [sorted(names)] on strings *)
Definition sorted (names : list string) : list string :=
  merge_sort String.le names.

Record OAuthPopup := {
  popup_code : string;
  popup_visible : bool
}.

Record CustomWebPage := {
  page_scheme : string
}.

Record OAuthBrowser := {
  page : CustomWebPage;
  loaded_url : Qt.QUrl;
  popup : option OAuthPopup;
  browser_visible : bool
}.

Record BrandCountrySelector := {
  selector_configs : dict VendorConfig;
  valid_brands : list string;
  brand_combo : Qt.QComboBox;
  country_combo : Qt.QComboBox;
  browser_window : option OAuthBrowser;
  selector_visible : bool
}.

(** A method returns or raises, leaves its object in a new state and
    produces output. *)
Definition method (S A : Type) : Type := result A * S * list event.

Section oauth_helper.
Context `{Runtime}.

(** The global [DEBUG], as it stands once the arguments are read. *)
Variable DEBUG : bool.

Definition debug_print (lines : list text) : list event :=
  if DEBUG then Printed <$> lines else [].

(** [except Exception]: everything but [SystemExit] *)
Definition is_Exception (e : exn) : bool :=
  match e with
  | SystemExit _ => false
  | _ => true
  end.

(** [download_configs()].  [fetched] is what
    [json.loads(urlopen(CONFIG_URL).read().decode())] gives: the document
    or the exception of the request, the decoding or the parser. *)
Definition download_configs (qapp : bool) (fetched : result (dict VendorConfig))
    : completion (dict VendorConfig) * list event :=
  match fetched with
  | Ok data =>
      (Completes (Ok data),
       debug_print [TFormat "CONFIGS_DOWNLOADED" (ArgConfigs data)])
  | Raise e =>
      if is_Exception e then
        let log := [Printed (TFormat "CONFIGS_ERROR" (ArgExn e))] in
        match Qt.QMessageBox_critical qapp (T "ERROR_TITLE")
                (TFormat "ERROR_MESSAGE" (ArgExn e)) with
        | (Completes _, out) => (Completes (Raise (SystemExit 1)), log ++ out)
        | (Aborts, out) => (Aborts, log ++ out)
        end
      else (Completes (Raise e), [])
  end.

(** [OAuthPopup(code)] *)
Definition OAuthPopup_init (code : string) : OAuthPopup :=
  {| popup_code := code; popup_visible := false |}.

(** [OAuthBrowser(auth_url, scheme)] *)
Definition OAuthBrowser_init (auth_url scheme : string) : OAuthBrowser :=
  {| page := {| page_scheme := scheme |};
     loaded_url := {| Qt.toString := auth_url |};
     popup := None;
     browser_visible := false |}.

(** [OAuthBrowser.show_oauth_popup(code)] *)
Definition show_oauth_popup (self : OAuthBrowser) (code : string)
    : OAuthBrowser * list event :=
  let popup := OAuthPopup_init code in
  let popup := {| popup_code := popup_code popup; popup_visible := true |} in
  ({| page := page self; loaded_url := loaded_url self;
      popup := Some popup; browser_visible := false |},
   [Shown (PopupWindow code);
    Closed (BrowserWindow (Qt.toString (loaded_url self)))]).

(** [params.get("code", [""])[0]] *)
Definition first_code (params : gmap string (list string)) : result string :=
  match default [""] (params !! "code") with
  | code :: _ => Ok code
  | [] => Raise IndexError
  end.

(** [CustomWebPage.acceptNavigationRequest(url, nav_type, is_main_frame)],
    on the browser window that owns the page
    ([self.view().parent()]). *)
Definition acceptNavigationRequest (browser : OAuthBrowser)
    (url : Qt.QUrl) (nav_type : Qt.NavigationType) (is_main_frame : bool)
    : method OAuthBrowser bool :=
  let url_str := Qt.toString url in
  if Str.startswith url_str (page_scheme (page browser) +:+ "://") then
    match parsed ← urllib.urlparse url_str;
          first_code (urllib.parse_qs (urllib.query parsed)) with
    | Ok code =>
        let log := debug_print [Literal "===================="; 
                                TFormat "OAUTH_CODE_LABEL" (ArgStr code);
                                Literal "===================="] in
        let '(browser, out) := show_oauth_popup browser code in
        (Ok false, browser, log ++ out)
    | Raise e => (Raise e, browser, [])
    end
  else
    (Ok (Qt.QWebEnginePage_acceptNavigationRequest url nav_type is_main_frame),
     browser, []).

(** [BrandCountrySelector.update_countries(brand_name)] *)
Definition update_countries (self : BrandCountrySelector) (brand_name : string)
    : method BrandCountrySelector () :=
  let with_countries combo :=
    {| selector_configs := selector_configs self;
       valid_brands := valid_brands self;
       brand_combo := brand_combo self;
       country_combo := combo;
       browser_window := browser_window self;
       selector_visible := selector_visible self |} in
  let combo := Qt.clear (country_combo self) in
  match cfg ← getitem (selector_configs self) brand_name;
        countries ← field "configs" (configs cfg);
        mret (keys countries) with
  | Ok countries =>
      let combo := Qt.addItems (sorted countries) combo in
      let combo := Qt.setCurrentIndex 0 combo in
      (Ok (), with_countries combo, [])
  | Raise (KeyError _) =>
      (Ok (), with_countries (Qt.clear combo),
       [Printed (TFormat "NO_COUNTRIES_FOR_BRAND" (ArgStr brand_name))])
  | Raise e => (Raise e, with_countries combo, [])
  end.

(** ["configs" in configs[b]], for a key [b] of [configs] *)
Definition has_key_configs (configs_ : dict VendorConfig) (b : string) : bool :=
  match get configs_ b with
  | Some cfg => bool_decide (is_Some (configs cfg))
  | None => false
  end.

(** [BrandCountrySelector(configs)] *)
Definition BrandCountrySelector_init (configs_ : dict VendorConfig)
    : method BrandCountrySelector () :=
  let valid_brands :=
    filter (λ b, has_key_configs configs_ b = true) (keys configs_) in
  let brand_combo := Qt.addItems valid_brands Qt.QComboBox_new in
  let self :=
    {| selector_configs := configs_;
       valid_brands := valid_brands;
       brand_combo := brand_combo;
       country_combo := Qt.QComboBox_new;
       browser_window := None;
       selector_visible := false |} in
  update_countries self (Qt.currentText brand_combo).

(** The user picks the brand at index [i]: the combo box emits
    [currentTextChanged] when its index changes, and [update_countries] is
    connected to it. *)
Definition brand_selected (self : BrandCountrySelector) (i : nat)
    : method BrandCountrySelector () :=
  let combo := Qt.setCurrentIndex i (brand_combo self) in
  let self' :=
    {| selector_configs := selector_configs self;
       valid_brands := valid_brands self;
       brand_combo := combo;
       country_combo := country_combo self;
       browser_window := browser_window self;
       selector_visible := selector_visible self |} in
  if decide (Qt.currentIndex combo = Qt.currentIndex (brand_combo self))
  then (Ok (), self', [])
  else update_countries self' (Qt.currentText combo).

(** The f-string of [launch_browser] *)
Definition auth_url_of (oauth_url client_id scheme country locale_code : string)
    : string :=
  oauth_url +:+ "/am/oauth2/authorize?client_id=" +:+ client_id
    +:+ "&response_type=code"
    +:+ "&redirect_uri=" +:+ scheme +:+ "://oauth2redirect/"
    +:+ str_lower country +:+ "&scope=openid%20profile%20email&locale="
    +:+ locale_code.

(** [BrandCountrySelector.launch_browser()].  The dialog has the selector
    as its parent, so the application exists. *)
Definition launch_browser (self : BrandCountrySelector)
    : method BrandCountrySelector () :=
  let brand := Qt.currentText (brand_combo self) in
  let country := Qt.currentText (country_combo self) in
  match cfg ← getitem (selector_configs self) brand;
        country_cfg ← (countries ← field "configs" (configs cfg);
                       getitem countries country);
        oauth_url ← field "oauth_url" (oauth_url cfg);
        scheme ← field "scheme" (scheme cfg);
        locale_code ← field "locale" (locale country_cfg);
        client_id ← field "client_id" (client_id country_cfg);
        mret (auth_url_of oauth_url client_id scheme country locale_code,
              scheme) with
  | Ok (auth_url, scheme) =>
      let browser := OAuthBrowser_init auth_url scheme in
      let browser :=
        {| page := page browser; loaded_url := loaded_url browser;
           popup := popup browser; browser_visible := true |} in
      (Ok (),
       {| selector_configs := selector_configs self;
          valid_brands := valid_brands self;
          brand_combo := brand_combo self;
          country_combo := country_combo self;
          browser_window := Some browser;
          selector_visible := false |},
       debug_print [TFormat "AUTH_URL_LOG" (ArgStr auth_url)]
         ++ [Shown (BrowserWindow auth_url); Closed SelectorWindow])
  | Raise (KeyError k) =>
      let e := ArgExn (KeyError k) in
      (Ok (), self,
       [Printed (TFormat "MISSING_KEY_LOG" e);
        Critical (T "MISSING_KEY_TITLE") (TFormat "MISSING_KEY_MESSAGE" e)])
  | Raise e => (Raise e, self, [])
  end.

(** The script under [if __name__ == "__main__"], up to the event loop.
    Reading the arguments and scaling the font touch nothing of the state
    kept here.  [download_configs()] runs before
    [app = QApplication(sys.argv)].  [screen_dpi] is the text of [{dpi}] in
    the line that the font block prints under [DEBUG], [None] when the block
    raises before that line; its [except Exception: pass] lets the script
    go on. *)
Definition main (screen_dpi : option string) (fetched : result (dict VendorConfig))
    : completion BrandCountrySelector * list event :=
  let qapp := false in
  match download_configs qapp fetched with
  | (Completes (Ok configs_), out) =>
      (* app = QApplication(sys.argv) *)
      let dpi_line :=
        match screen_dpi with
        | Some dpi => debug_print [Literal ("Screen DPI detected: " +:+ dpi)]
        | None => []
        end in
      match BrandCountrySelector_init configs_ with
      | (Ok _, selector, out') =>
          (Completes (Ok
             {| selector_configs := selector_configs selector;
                valid_brands := valid_brands selector;
                brand_combo := brand_combo selector;
                country_combo := country_combo selector;
                browser_window := browser_window selector;
                selector_visible := true |}),
           out ++ dpi_line ++ out' ++ [Shown SelectorWindow])
      | (Raise e, _, out') => (Completes (Raise e), out ++ dpi_line ++ out')
      end
  | (Completes (Raise e), out) => (Completes (Raise e), out)
  | (Aborts, out) => (Aborts, out)
  end.

(** The navigation requests of a run, delivered one after the other to
    the page.  An exception that leaves the hook ends the run. *)
Fixpoint deliver (browser : OAuthBrowser)
    (requests : list (Qt.QUrl * Qt.NavigationType * bool))
    : method OAuthBrowser (list bool) :=
  match requests with
  | [] => (Ok [], browser, [])
  | (url, nav_type, is_main_frame) :: rest =>
      match acceptNavigationRequest browser url nav_type is_main_frame with
      | (Ok accepted, browser, out) =>
          let '(r, browser, out') := deliver browser rest in
          (cons accepted <$> r, browser, out ++ out')
      | (Raise e, browser, out) => (Raise e, browser, out)
      end
  end.

End oauth_helper.

(** What a method returned, the state it left and what it put out. *)
Definition returned {S A} (m : method S A) : result A := m.1.1.
Definition state_after {S A} (m : method S A) : S := m.1.2.
Definition output {S A} (m : method S A) : list event := m.2.

(** The codes that a run handed to the result popup, in order. *)
Definition captures (out : list event) : list string :=
  omap (λ e, match e with Shown (PopupWindow code) => Some code | _ => None end) out.


(** The values that the fields named [name] carry in a query string, in the
    order of the fields. *)
Definition values_of (name : string) (fields : list (string * string)) : list string :=
  (filter (λ f, f.1 = name) fields).*2.

Definition code_values (qs : string) : list string :=
  values_of "code" (urllib.parse_qsl qs).

(** A navigation request for a URL of the scheme [s], and the code that
    its URL carries. *)
Definition matching (s : string) (request : Qt.QUrl * Qt.NavigationType * bool) : bool :=
  Str.startswith (Qt.toString request.1.1) (s +:+ "://").

Definition code_of `{Runtime} (request : Qt.QUrl * Qt.NavigationType * bool) : string :=
  match urllib.urlparse (Qt.toString request.1.1) with
  | Ok parsed => default "" (head (code_values (urllib.query parsed)))
  | Raise _ => ""
  end.

(** Whether [urlparse] accepts the URL of a request. *)
Definition parses `{Runtime} (request : Qt.QUrl * Qt.NavigationType * bool) : bool :=
  match urllib.urlparse (Qt.toString request.1.1) with
  | Ok _ => true
  | Raise _ => false
  end.

(** The requests of a run that the hook handles: those before the first
    request for a URL of the scheme that [urlparse] refuses, whose
    [ValueError] ends the run. *)
Fixpoint handled `{Runtime} (s : string)
    (requests : list (Qt.QUrl * Qt.NavigationType * bool))
    : list (Qt.QUrl * Qt.NavigationType * bool) :=
  match requests with
  | [] => []
  | request :: rest =>
      if matching s request && negb (parses request) then []
      else request :: handled s rest
  end.

(** No request of the run is for a URL of the scheme that [urlparse]
    refuses. *)
Definition all_handled `{Runtime} (s : string)
    (requests : list (Qt.QUrl * Qt.NavigationType * bool)) : bool :=
  forallb (λ request, negb (matching s request && negb (parses request))) requests.

(** The country codes of a brand: the keys of its ["configs"], none when the
    brand or that key is missing. *)
Definition country_codes (configs_ : dict VendorConfig) (brand : string) : list string :=
  match get configs_ brand with
  | Some cfg => match configs cfg with
                | Some countries => keys countries
                | None => []
                end
  | None => []
  end.

(** The keys that [launch_browser] expects for a brand and a country, when
    missing: the brand, ["configs"], the country, ["oauth_url"], ["scheme"],
    ["locale"] and ["client_id"]. *)
Inductive absent_key (configs_ : dict VendorConfig) (brand country : string)
    : string → Prop :=
  | absent_brand :
      get configs_ brand = None →
      absent_key configs_ brand country brand
  | absent_configs cfg :
      get configs_ brand = Some cfg → configs cfg = None →
      absent_key configs_ brand country "configs"
  | absent_country cfg countries :
      get configs_ brand = Some cfg → configs cfg = Some countries →
      get countries country = None →
      absent_key configs_ brand country country
  | absent_oauth_url cfg :
      get configs_ brand = Some cfg → oauth_url cfg = None →
      absent_key configs_ brand country "oauth_url"
  | absent_scheme cfg :
      get configs_ brand = Some cfg → scheme cfg = None →
      absent_key configs_ brand country "scheme"
  | absent_locale cfg countries country_cfg :
      get configs_ brand = Some cfg → configs cfg = Some countries →
      get countries country = Some country_cfg → locale country_cfg = None →
      absent_key configs_ brand country "locale"
  | absent_client_id cfg countries country_cfg :
      get configs_ brand = Some cfg → configs cfg = Some countries →
      get countries country = Some country_cfg → client_id country_cfg = None →
      absent_key configs_ brand country "client_id".

(** A document for examples. *)
Definition sample_configs : dict VendorConfig :=
  [("Peugeot",
    {| oauth_url := Some "https://idpcvs.peugeot.com";
       scheme := Some "mymap";
       configs := Some [("FR", {| locale := Some "fr-FR"; client_id := Some "1eebc2d5" |});
                        ("BE", {| locale := Some "fr-BE"; client_id := Some "1eebc2d6" |})] |});
   ("Opel",
    {| oauth_url := Some "https://idpcvs.opel.com";
       scheme := Some "mymop";
       configs := Some [] |});
   ("Fiat",
    {| oauth_url := Some "https://idpcvs.fiat.com";
       scheme := None;
       configs := None |})].

(** The selector screen of the example document, with Opel picked. *)
Definition sample_selector : BrandCountrySelector :=
  state_after (brand_selected
    (state_after (BrandCountrySelector_init sample_configs)) 1).

(** A runtime for examples: ASCII case mapping, and every bracketed or
    non-ASCII netloc taken as valid. *)
Definition ascii_runtime : Runtime :=
  {| str_lower := Str.lower_ascii; netloc_ok := λ _, true |}.

(** The name of a raw field [name=value] of a query string, as [parse_qsl]
    reads it, and its raw value, empty when the field has no ['=']. *)
Definition raw_name (name_value : string) : string :=
  urllib.unquote (Str.replace "+"%char " "%char (Str.partition "="%char name_value).1).

Definition raw_value (name_value : string) : string :=
  default "" (Str.partition "="%char name_value).2.

(** ** The rest of the program: texts, language, debugging, events *)

(** [STRINGS] *)
Definition STRINGS : dict (dict string) :=
  [("en",
    [("WINDOW_TITLE", "Brand and Country Selection");
     ("BRAND_LABEL", "Choose the brand:");
     ("COUNTRY_LABEL", "Choose the country:");
     ("CONTINUE_BUTTON", "Continue");
     ("OAUTH_POPUP_TITLE", "OAuth Code Retrieved");
     ("COPY_BUTTON_TEXT", "Copy the code");
     ("CONFIGS_DOWNLOADED", "Configurations downloaded: {}");
     ("CONFIGS_ERROR", "Error downloading configurations: {}");
     ("ERROR_TITLE", "Error");
     ("ERROR_MESSAGE", "Failed to download configurations: {}");
     ("NO_COUNTRIES_FOR_BRAND", "No countries available for brand: {}");
     ("AUTH_URL_LOG", "Authentication URL: {}");
     ("MISSING_KEY_LOG", "Error: Missing key - {}");
     ("MISSING_KEY_TITLE", "Error");
     ("MISSING_KEY_MESSAGE", "Missing configuration key: {}");
     ("BROWSER_WINDOW_TITLE", "Stellantis Login");
     ("OAUTH_CODE_LABEL", "OAuth Code:" +:+ String "010"%char "{}")]);
   ("fr",
    [("WINDOW_TITLE", "Sélection de la marque et du pays");
     ("BRAND_LABEL", "Choisissez la marque :");
     ("COUNTRY_LABEL", "Choisissez le pays :");
     ("CONTINUE_BUTTON", "Continuer");
     ("OAUTH_POPUP_TITLE", "Code OAuth récupéré");
     ("COPY_BUTTON_TEXT", "Copier le code");
     ("CONFIGS_DOWNLOADED", "Configurations téléchargées : {}");
     ("CONFIGS_ERROR", "Erreur lors du téléchargement des configurations : {}");
     ("ERROR_TITLE", "Erreur");
     ("ERROR_MESSAGE", "Échec du téléchargement des configurations : {}");
     ("NO_COUNTRIES_FOR_BRAND", "Aucun pays disponible pour la marque : {}");
     ("AUTH_URL_LOG", "URL d'authentification : {}");
     ("MISSING_KEY_LOG", "Erreur : clé manquante - {}");
     ("MISSING_KEY_TITLE", "Erreur");
     ("MISSING_KEY_MESSAGE", "Clé de configuration manquante : {}");
     ("BROWSER_WINDOW_TITLE", "Connexion Stellantis");
     ("OAUTH_CODE_LABEL", "Code OAuth :" +:+ String "010"%char "{}")])].

(** [t(key)], for the global [LANG] *)
Definition t (LANG key : string) : result string :=
  en ← getitem STRINGS "en";
  mret (default key (get (default en (get STRINGS LANG)) key)).

(** The loop of [detect_language] over the environment variables: the
    first value that is not blank once stripped, or the empty string. *)
Fixpoint from_environ (environ : dict string) (vars : list string) : string :=
  match vars with
  | [] => ""
  | var :: rest =>
      match Str.strip (default "" (get environ var)) with
      | "" => from_environ environ rest
      | val => val
      end
  end.

(** [detect_language()].  [getlocale] is what [locale.getlocale()[0]] gives
    once [setlocale] has run, a name or [None], or the exception it raises;
    [environ] is [os.environ]. *)
Definition detect_language `{Runtime} (getlocale : result (option string))
    (environ : dict string) : result string :=
  lang_code ← match getlocale with
               | Ok name => Ok (Str.strip (default "" name))
               | Raise e => if is_Exception e then Ok "" else Raise e
               end;
  let lang_code :=
    match lang_code with
    | "" => from_environ environ ["LC_ALL"; "LC_CTYPE"; "LANG"]
    | _ => lang_code
    end in
  let lang_code := match lang_code with "" => "en" | _ => lang_code end in
  part ← Str.item0 (Str.split "_" (Str.replace "-" "_" lang_code));
  let base := str_lower part in
  mret (if bool_decide (base ∈ keys STRINGS) then base else "en").

(** The global [LANG] when the selector is made: [detect_language()] at
    import, then the [--locale] argument of the script, [args_locale]. *)
Definition startup_language `{Runtime} (args_locale : option string)
    (getlocale : result (option string)) (environ : dict string) : result string :=
  LANG ← detect_language getlocale environ;
  match str_lower (Str.strip (default "" args_locale)) with
  | "" => mret LANG
  | locale_arg =>
      let base_locale :=
        match Str.item0 (Str.split "_" locale_arg) with
        | Ok part => part
        | Raise _ => locale_arg
        end in
      if bool_decide (base_locale ∈ keys STRINGS) then mret base_locale
      else detect_language getlocale environ
  end.

(** The global [DEBUG] at import, from [os.getenv("STELLANTIS_DEBUG", "f")],
    and once the script has read [--debug]. *)
Definition DEBUG_at_import `{Runtime} (STELLANTIS_DEBUG : option string) : result bool :=
  match str_lower (default "f" STELLANTIS_DEBUG) with
  | "" => Raise IndexError
  | String c _ => Ok (bool_decide (c ∈ ["1"; "t"; "y"]%char))
  end.

Definition DEBUG_at_startup `{Runtime} (STELLANTIS_DEBUG : option string)
    (args_debug : bool) : result bool :=
  DEBUG ← DEBUG_at_import STELLANTIS_DEBUG;
  mret (if args_debug then true else DEBUG).

(** [QWebEnginePage.JavaScriptConsoleMessageLevel] *)
Inductive JavaScriptConsoleMessageLevel :=
  | InfoMessageLevel
  | WarningMessageLevel
  | ErrorMessageLevel.

(** [int(level)] *)
Definition int_of_level (level : JavaScriptConsoleMessageLevel) : Z :=
  match level with
  | InfoMessageLevel => 0
  | WarningMessageLevel => 1
  | ErrorMessageLevel => 2
  end.

(** [CustomWebPage.javaScriptConsoleMessage(level, message, lineNumber,
    sourceID)]: what it prints, and whether it goes on to the base class. *)
Definition javaScriptConsoleMessage (DEBUG : bool)
    (level : JavaScriptConsoleMessageLevel) (message : string)
    (lineNumber : Z) (sourceID : string) : list event * bool :=
  if DEBUG then
    let level_name :=
      default (pretty (int_of_level level))
        (list_to_map (M := gmap Z string)
           [(0, "Info"); (1, "Warning"); (2, "Error")]%Z !! int_of_level level) in
    ([Printed (Literal ("JS " +:+ level_name +:+ ": " +:+ message
                        +:+ " (line " +:+ pretty lineNumber +:+ ")"))],
     true)
  else ([], false).

(** The button of [OAuthPopup]: [QApplication.clipboard().setText(code)],
    as the new content of the clipboard. *)
Definition copy_button_clicked (self : OAuthPopup) (clipboard : string) : string :=
  popup_code self.

(** The user picks the country at index [i]; nothing is connected to the
    country box. *)
Definition country_selected (self : BrandCountrySelector) (i : nat)
    : method BrandCountrySelector () :=
  (Ok (),
   {| selector_configs := selector_configs self;
      valid_brands := valid_brands self;
      brand_combo := brand_combo self;
      country_combo := Qt.setCurrentIndex i (country_combo self);
      browser_window := browser_window self;
      selector_visible := selector_visible self |},
   []).

(** What the user does on the selector screen before pressing the button. *)
Inductive selector_event :=
  | BrandPicked (i : nat)
  | CountryPicked (i : nat).

Definition selector_step (self : BrandCountrySelector) (ev : selector_event)
    : BrandCountrySelector :=
  match ev with
  | BrandPicked i => state_after (brand_selected self i)
  | CountryPicked i => state_after (country_selected self i)
  end.

(** The selector screen of a document after some picks. *)
Definition selector_after (configs_ : dict VendorConfig) (evs : list selector_event)
    : BrandCountrySelector :=
  foldl selector_step (state_after (BrandCountrySelector_init configs_)) evs.

(** The boxes of a selector screen agree with its document: the country box
    lists the codes of the brand selected, and its index is within them. *)
Definition selector_consistent (configs_ : dict VendorConfig)
    (self : BrandCountrySelector) : Prop :=
  selector_configs self = configs_
  ∧ Qt.items (country_combo self)
      = sorted (country_codes configs_ (Qt.currentText (brand_combo self)))
  ∧ (∀ i, Qt.currentIndex (country_combo self) = Some i →
          i < length (Qt.items (country_combo self))).

(** The names that [detect_language] looks at, in its order: the locale
    name, then [LC_ALL], [LC_CTYPE] and [LANG]; and the first of them that
    is not blank. *)
Definition locale_candidates (getlocale : result (option string))
    (environ : dict string) : list string :=
  [match getlocale with Ok name => default "" name | Raise _ => "" end;
   default "" (get environ "LC_ALL");
   default "" (get environ "LC_CTYPE");
   default "" (get environ "LANG")].

Definition first_nonblank (candidates : list string) : option string :=
  head (filter (λ v, Str.strip v ≠ "") candidates).

(** The texts that an event shows, and the key of a text of [STRINGS]. *)
Definition texts_of (e : event) : list text :=
  match e with
  | Printed line => [line]
  | Critical title message => [title; message]
  | _ => []
  end.

Definition key_of (tx : text) : option string :=
  match tx with
  | T key | TFormat key _ => Some key
  | Literal _ => None
  end.

(** ** Classes of text used in the statements *)

(** A URI scheme: a letter, then letters, digits, ['+'], ['-'] and ['.']. *)
Definition valid_scheme (s : string) : bool :=
  match s with
  | "" => false
  | String c0 _ => Str.isalpha c0 && Str.forallb urllib.scheme_char s
  end.

(** No character of [s] is one of [cs]. *)
Definition without (cs s : string) : bool :=
  Str.forallb (λ c, negb (Str.contains c cs)) s.

(** Tab, carriage return and line feed *)
Definition tab_cr_lf : string :=
  String "009"%char (String "013"%char (String "010"%char "")).

(** A line on the console *)
Definition is_Printed (e : event) : bool :=
  match e with
  | Printed _ => true
  | _ => false
  end.

(** [str.lower] is the ASCII case mapping on ASCII text. *)
Definition lowers_ascii `{Runtime} : Prop :=
  ∀ s, Str.forallb Str.isascii s = true → str_lower s = Str.lower_ascii s.

(** * Properties *)

(** ** The library functions on examples *)

Example urlparse_redirect :
  urllib.urlparse (H := ascii_runtime)
    "stellantis://oauth2redirect/fr?code=ABC123&state=xyz"
  = Ok {| urllib.scheme := "stellantis"; urllib.netloc := "oauth2redirect";
          urllib.path := "/fr"; urllib.params := "";
          urllib.query := "code=ABC123&state=xyz"; urllib.fragment := "" |}.
Proof. reflexivity. Qed.

Example urlparse_fragment_and_params :
  urllib.urlparse (H := ascii_runtime) " HTTP://host/a;b/c;d?q=1?r#f?g"
  = Ok {| urllib.scheme := "http"; urllib.netloc := "host";
          urllib.path := "/a;b/c"; urllib.params := "d";
          urllib.query := "q=1?r"; urllib.fragment := "f?g" |}.
Proof. reflexivity. Qed.

Example urlparse_unmatched_bracket `{Runtime} :
  urllib.urlparse "stellantis://[oauth2redirect/fr?code=ABC123" = Raise ValueError.
Proof. reflexivity. Qed.

Example parse_qsl_fields :
  urllib.parse_qsl "code=ABC123&state=xyz&&flag&blank=&c%6Fde=a+b%21"
  = [("code", "ABC123"); ("state", "xyz"); ("code", "a b!")].
Proof. reflexivity. Qed.

Example unquote_utf8 :
  urllib.unquote "%E2%82%AC%E2%82%zz%ED%A0%80" = "€�%zz���".
Proof. reflexivity. Qed.

Example parse_qs_collects :
  urllib.parse_qs "code=1&state=x&code=2" !! "code" = Some ["1"; "2"].
Proof. reflexivity. Qed.

Example sorted_country_codes : sorted ["IT"; "FR"; "BE"; "DE"] = ["BE"; "DE"; "FR"; "IT"].
Proof. reflexivity. Qed.

(** A blank [code] followed by one with a value: the value is the code. *)
Example blank_then_value :
  captures (output (acceptNavigationRequest (H := ascii_runtime) false
    (OAuthBrowser_init "https://idp/authorize" "stellantis")
    {| Qt.toString := "stellantis://oauth2redirect/fr?code=&code=ABC123" |}
    Qt.NavigationTypeRedirect true)) = ["ABC123"].
Proof. reflexivity. Qed.

(** ** Strings *)

Lemma app_String (a : ascii) (s r : string) : String a s +:+ r = String a (s +:+ r).
Proof. reflexivity. Qed.

Lemma eqc_true (a b : ascii) : Str.eqc a b = true ↔ a = b.
Proof. unfold Str.eqc. apply bool_decide_eq_true. Qed.

Lemma startswith_spec (s p : string) :
  Str.startswith s p = true ↔ ∃ rest, s = p +:+ rest.
Proof.
  revert s. induction p as [|a p IH]; intros s; simpl.
  - split; [intros _; exists s; reflexivity | done].
  - destruct s as [|b s].
    + split; [done | intros [rest Hrest]; discriminate Hrest].
    + rewrite andb_true_iff, eqc_true, IH. split.
      * intros [-> [rest ->]]. by exists rest.
      * intros [rest Hrest]. rewrite app_String in Hrest.
        injection Hrest as -> ->. eauto.
Qed.


(** ** The query string *)

Lemma values_of_cons (k : string) (f : string * string) (l : list (string * string)) :
  values_of k (f :: l) = if decide (f.1 = k) then f.2 :: values_of k l else values_of k l.
Proof.
  unfold values_of. rewrite filter_cons. by destruct (decide (f.1 = k)).
Qed.

(** The [dict] that [parse_qs] builds maps a name to the values of its
    fields, in order; a name without fields is not a key. *)
Lemma parse_qs_add_lookup (l : list (string * string))
    (m : gmap string (list string)) (k : string) :
  foldl urllib.parse_qs_add m l !! k =
    match m !! k with
    | Some ws => Some (ws ++ values_of k l)
    | None => match values_of k l with [] => None | vs => Some vs end
    end.
Proof.
  revert m. induction l as [|[n v] l IH]; intros m.
  - simpl. destruct (m !! k); [by rewrite app_nil_r | done].
  - rewrite values_of_cons. simpl foldl. rewrite IH. clear IH.
    unfold urllib.parse_qs_add. simpl.
    destruct (decide (n = k)) as [->|Hne].
    + destruct (m !! k) as [ws|] eqn:Hm.
      * rewrite lookup_insert_eq. by rewrite <- app_assoc.
      * by rewrite lookup_insert_eq.
    + destruct (m !! n); by rewrite lookup_insert_ne.
Qed.

Lemma parse_qs_lookup (qs k : string) :
  urllib.parse_qs qs !! k =
    match values_of k (urllib.parse_qsl qs) with [] => None | vs => Some vs end.
Proof.
  unfold urllib.parse_qs. by rewrite parse_qs_add_lookup, lookup_empty.
Qed.

(** [params.get("code", [""])[0]] never fails: it is the first value of
    [code], or the empty string. *)
Lemma first_code_parse_qs (qs : string) :
  first_code (urllib.parse_qs qs) = Ok (default "" (head (code_values qs))).
Proof.
  unfold first_code, code_values. rewrite parse_qs_lookup.
  by destruct (values_of "code" (urllib.parse_qsl qs)).
Qed.

(** ** The navigation hook *)

Lemma captures_app (out out' : list event) :
  captures (out ++ out') = captures out ++ captures out'.
Proof. apply omap_app. Qed.

Lemma captures_debug_print (DEBUG : bool) (lines : list text) :
  captures (debug_print DEBUG lines) = [].
Proof.
  unfold debug_print. destruct DEBUG; [|done].
  induction lines as [|line lines IH]; [done | exact IH].
Qed.

Lemma urlsplit_raises_ValueError `{Runtime} (u : string) (e : exn) :
  urllib.urlsplit u = Raise e → e = ValueError.
Proof.
  unfold urllib.urlsplit. repeat case_match; intros Heq; by simplify_eq.
Qed.

(** The query of [urlparse] is the query of [urlsplit]. *)
Lemma urlparse_urlsplit `{Runtime} (u : string) :
  urllib.urlparse u =
    match urllib.urlsplit u with
    | Ok r =>
        Ok {| urllib.scheme := urllib.split_scheme r;
              urllib.netloc := urllib.split_netloc r;
              urllib.path :=
                (if bool_decide (urllib.split_scheme r ∈ urllib.uses_params)
                    && Str.contains ";" (urllib.split_path r)
                 then urllib.splitparams (urllib.split_path r)
                 else (urllib.split_path r, "")).1;
              urllib.params :=
                (if bool_decide (urllib.split_scheme r ∈ urllib.uses_params)
                    && Str.contains ";" (urllib.split_path r)
                 then urllib.splitparams (urllib.split_path r)
                 else (urllib.split_path r, "")).2;
              urllib.query := urllib.split_query r;
              urllib.fragment := urllib.split_fragment r |}
    | Raise e => Raise e
    end.
Proof.
  unfold urllib.urlparse. destruct (urllib.urlsplit u) as [r|e]; [|done]. simpl.
  by destruct (bool_decide _ && _); [destruct (urllib.splitparams _)|].
Qed.

Lemma urlparse_raises_ValueError `{Runtime} (u : string) (e : exn) :
  urllib.urlparse u = Raise e → e = ValueError.
Proof.
  rewrite urlparse_urlsplit.
  destruct (urllib.urlsplit u) as [r|e'] eqn:Hsplit; [done|].
  intros [= <-]. by eapply urlsplit_raises_ValueError.
Qed.

Section hook.
Context `{Runtime} (DEBUG : bool).

(** A request for a URL outside the scheme goes to the base class and
    changes nothing. *)
Lemma accept_other browser url nav_type is_main_frame :
  Str.startswith (Qt.toString url) (page_scheme (page browser) +:+ "://") = false →
  acceptNavigationRequest DEBUG browser url nav_type is_main_frame =
    (Ok (Qt.QWebEnginePage_acceptNavigationRequest url nav_type is_main_frame),
     browser, []).
Proof. intros Hs. unfold acceptNavigationRequest. by rewrite Hs. Qed.

(** A request for a URL of the scheme that [urlparse] accepts is refused,
    and its code goes to the popup. *)
Lemma accept_matching browser url nav_type is_main_frame parsed :
  Str.startswith (Qt.toString url) (page_scheme (page browser) +:+ "://") = true →
  urllib.urlparse (Qt.toString url) = Ok parsed →
  let code := default "" (head (code_values (urllib.query parsed))) in
  acceptNavigationRequest DEBUG browser url nav_type is_main_frame =
    (Ok false,
     {| page := page browser; loaded_url := loaded_url browser;
        popup := Some {| popup_code := code; popup_visible := true |};
        browser_visible := false |},
     debug_print DEBUG [Literal "====================";
                        TFormat "OAUTH_CODE_LABEL" (ArgStr code);
                        Literal "===================="]
       ++ [Shown (PopupWindow code);
           Closed (BrowserWindow (Qt.toString (loaded_url browser)))]).
Proof.
  intros Hs Hp code. unfold acceptNavigationRequest. rewrite Hs, Hp. simpl.
  by rewrite first_code_parse_qs.
Qed.

(** When [urlparse] refuses the URL, its [ValueError] leaves the hook. *)
Lemma accept_raises browser url nav_type is_main_frame e :
  Str.startswith (Qt.toString url) (page_scheme (page browser) +:+ "://") = true →
  urllib.urlparse (Qt.toString url) = Raise e →
  acceptNavigationRequest DEBUG browser url nav_type is_main_frame =
    (Raise e, browser, []).
Proof.
  intros Hs Hp. unfold acceptNavigationRequest. by rewrite Hs, Hp.
Qed.

End hook.

(** ** Redirect interception *)



(** C10: for a URL of the scheme, the outcome of the hook (what it
    returns, the code it captures, the state it leaves) is the same for
    every navigation type and for main frames and subframes alike; when the
    URL parses, a subframe navigation is refused as well. *)
Theorem interceptor_ignores_navigation_type_and_frame `{Runtime} (DEBUG : bool)
    (browser : OAuthBrowser) (url : Qt.QUrl)
    (nav_type nav_type' : Qt.NavigationType) (is_main_frame is_main_frame' : bool) :
  Str.startswith (Qt.toString url) (page_scheme (page browser) +:+ "://") = true →
  acceptNavigationRequest DEBUG browser url nav_type is_main_frame
    = acceptNavigationRequest DEBUG browser url nav_type' is_main_frame'
  ∧ (is_Ok (urllib.urlparse (Qt.toString url)) →
     returned (acceptNavigationRequest DEBUG browser url nav_type false) = Ok false).
Proof.
  intros Hs. split.
  - unfold acceptNavigationRequest. by rewrite Hs.
  - destruct (urllib.urlparse (Qt.toString url)) as [parsed|e] eqn:Hp; [|done].
    intros _. by rewrite (accept_matching DEBUG browser url nav_type false parsed Hs Hp).
Qed.

Lemma interceptor_ignores_navigation_type_and_frame_witness :
  Str.startswith "mym://oauth2redirect/de?code=0a1b" ("mym" +:+ "://") = true
  ∧ acceptNavigationRequest (H := ascii_runtime) true
      (OAuthBrowser_init "https://idp/authorize" "mym")
      {| Qt.toString := "mym://oauth2redirect/de?code=0a1b" |}
      Qt.NavigationTypeLinkClicked true
    = acceptNavigationRequest (H := ascii_runtime) true
        (OAuthBrowser_init "https://idp/authorize" "mym")
        {| Qt.toString := "mym://oauth2redirect/de?code=0a1b" |}
        Qt.NavigationTypeRedirect false.
Proof.
  split; [reflexivity|].
  apply (@interceptor_ignores_navigation_type_and_frame ascii_runtime true
           (OAuthBrowser_init "https://idp/authorize" "mym")
           {| Qt.toString := "mym://oauth2redirect/de?code=0a1b" |}
           Qt.NavigationTypeLinkClicked Qt.NavigationTypeRedirect true false).
  reflexivity.
Defined.

(** ** The extracted code *)

Lemma values_of_app (k : string) (l l' : list (string * string)) :
  values_of k (l ++ l') = values_of k l ++ values_of k l'.
Proof. unfold values_of. by rewrite filter_app, fmap_app. Qed.

(** A field whose value is blank, or that is not named [k], adds no value
    for [k]. *)
Lemma parse_field_blank (k name_value : string) :
  (raw_name name_value = k → raw_value name_value = "") →
  values_of k (urllib.parse_field name_value) = [].
Proof.
  unfold raw_name, raw_value, urllib.parse_field. intros Hblank.
  destruct name_value as [|c rest]; [done|].
  destruct (Str.partition "=" (String c rest)) as [name [value|]]; [|done].
  destruct value as [|v value]; [done|].
  rewrite values_of_cons. simpl in *.
  destruct (decide _) as [Hk|]; [|done]. by specialize (Hblank Hk).
Qed.

Lemma parse_qsl_blank (k qs : string) :
  Forall (λ f, raw_name f = k → raw_value f = "") (Str.split "&" qs) →
  values_of k (urllib.parse_qsl qs) = [].
Proof.
  unfold urllib.parse_qsl.
  induction 1 as [|f fs Hf _ IH]; [done|].
  rewrite fmap_cons. simpl concat.
  by rewrite values_of_app, parse_field_blank, IH.
Qed.

(** C2: for a URL of the scheme that [urlparse] accepts, the code handed to
    the popup is the first value of the query parameter [code], and the
    empty string when no field carries a value for [code]; the navigation
    is then refused as usual, no exception is raised.  For
    [stellantis://oauth2redirect/fr?code=ABC123&state=xyz] and the scheme
    [stellantis] the code is [ABC123]. *)
Theorem extracted_code_is_first_code_value `{Runtime} (DEBUG : bool) :
  (∀ browser url nav_type is_main_frame parsed,
     Str.startswith (Qt.toString url) (page_scheme (page browser) +:+ "://") = true →
     urllib.urlparse (Qt.toString url) = Ok parsed →
     let m := acceptNavigationRequest DEBUG browser url nav_type is_main_frame in
     returned m = Ok false
     ∧ captures (output m) = [default "" (head (code_values (urllib.query parsed)))]
     ∧ popup_code <$> popup (state_after m)
         = Some (default "" (head (code_values (urllib.query parsed))))
     ∧ (code_values (urllib.query parsed) = [] → captures (output m) = [""]))
  ∧ (∀ auth_url nav_type is_main_frame,
       let m := acceptNavigationRequest DEBUG
                  (OAuthBrowser_init auth_url "stellantis")
                  {| Qt.toString := "stellantis://oauth2redirect/fr?code=ABC123&state=xyz" |}
                  nav_type is_main_frame in
       returned m = Ok false ∧ captures (output m) = ["ABC123"]).
Proof.
  assert (∀ browser url nav_type is_main_frame parsed,
     Str.startswith (Qt.toString url) (page_scheme (page browser) +:+ "://") = true →
     urllib.urlparse (Qt.toString url) = Ok parsed →
     let m := acceptNavigationRequest DEBUG browser url nav_type is_main_frame in
     returned m = Ok false
     ∧ captures (output m) = [default "" (head (code_values (urllib.query parsed)))]
     ∧ popup_code <$> popup (state_after m)
         = Some (default "" (head (code_values (urllib.query parsed))))) as Hgen.
  { intros browser url nav_type is_main_frame parsed Hs Hp m. subst m.
    rewrite (accept_matching DEBUG browser url nav_type is_main_frame parsed Hs Hp).
    unfold returned, output, state_after. simpl fst. simpl snd.
    split; [done|]. split; [|done].
    by rewrite captures_app, captures_debug_print. }
  split.
  - intros browser url nav_type is_main_frame parsed Hs Hp m.
    destruct (Hgen browser url nav_type is_main_frame parsed Hs Hp) as (Hr & Hc & Hpop).
    repeat split; [done..|]. intros Hnone. subst m. rewrite Hc. by rewrite Hnone.
  - intros auth_url nav_type is_main_frame m.
    edestruct (Hgen (OAuthBrowser_init auth_url "stellantis")
                 {| Qt.toString := "stellantis://oauth2redirect/fr?code=ABC123&state=xyz" |}
                 nav_type is_main_frame) as (Hr & Hc & _);
      [reflexivity | reflexivity |].
    split; [exact Hr | exact Hc].
Qed.

(** C9: for a URL of the scheme that [urlparse] accepts, when every field
    of the query named [code] has an empty value (or no field is named
    [code] at all), the outcome is the one for the empty code, whatever
    else the URL holds: [parse_qs] drops fields with a blank value.  For
    [scheme://oauth2redirect/fr?code=&state=x] and the scheme [scheme] the
    code is empty. *)
Theorem blank_code_is_like_absent_code `{Runtime} (DEBUG : bool) :
  (∀ browser url nav_type is_main_frame parsed,
     Str.startswith (Qt.toString url) (page_scheme (page browser) +:+ "://") = true →
     urllib.urlparse (Qt.toString url) = Ok parsed →
     Forall (λ f, raw_name f = "code" → raw_value f = "")
       (Str.split "&" (urllib.query parsed)) →
     acceptNavigationRequest DEBUG browser url nav_type is_main_frame =
       (Ok false,
        {| page := page browser; loaded_url := loaded_url browser;
           popup := Some {| popup_code := ""; popup_visible := true |};
           browser_visible := false |},
        debug_print DEBUG [Literal "====================";
                           TFormat "OAUTH_CODE_LABEL" (ArgStr "");
                           Literal "===================="]
          ++ [Shown (PopupWindow "");
              Closed (BrowserWindow (Qt.toString (loaded_url browser)))]))
  ∧ (∀ auth_url nav_type is_main_frame,
       captures (output (acceptNavigationRequest DEBUG
                  (OAuthBrowser_init auth_url "scheme")
                  {| Qt.toString := "scheme://oauth2redirect/fr?code=&state=x" |}
                  nav_type is_main_frame)) = [""]
       ∧ acceptNavigationRequest DEBUG (OAuthBrowser_init auth_url "scheme")
           {| Qt.toString := "scheme://oauth2redirect/fr?code=&state=x" |}
           nav_type is_main_frame
         = acceptNavigationRequest DEBUG (OAuthBrowser_init auth_url "scheme")
             {| Qt.toString := "scheme://oauth2redirect/fr?state=x" |}
             nav_type is_main_frame).
Proof.
  assert (∀ browser url nav_type is_main_frame parsed,
     Str.startswith (Qt.toString url) (page_scheme (page browser) +:+ "://") = true →
     urllib.urlparse (Qt.toString url) = Ok parsed →
     Forall (λ f, raw_name f = "code" → raw_value f = "")
       (Str.split "&" (urllib.query parsed)) →
     acceptNavigationRequest DEBUG browser url nav_type is_main_frame =
       (Ok false,
        {| page := page browser; loaded_url := loaded_url browser;
           popup := Some {| popup_code := ""; popup_visible := true |};
           browser_visible := false |},
        debug_print DEBUG [Literal "====================";
                           TFormat "OAUTH_CODE_LABEL" (ArgStr "");
                           Literal "===================="]
          ++ [Shown (PopupWindow "");
              Closed (BrowserWindow (Qt.toString (loaded_url browser)))])) as Hgen.
  { intros browser url nav_type is_main_frame parsed Hs Hp Hblank.
    rewrite (accept_matching DEBUG browser url nav_type is_main_frame parsed Hs Hp).
    unfold code_values. by rewrite (parse_qsl_blank _ _ Hblank). }
  split; [exact Hgen|].
  intros auth_url nav_type is_main_frame.
  erewrite !Hgen; [| reflexivity | reflexivity | | reflexivity | reflexivity | ].
  - split; [|done]. unfold output. simpl snd.
    by rewrite captures_app, captures_debug_print.
  - simpl. repeat constructor; unfold raw_name, raw_value; vm_compute; congruence.
  - simpl. repeat constructor; unfold raw_name, raw_value; vm_compute; congruence.
Qed.

(** ** The hook over a run *)

Lemma deliver_cons `{Runtime} (DEBUG : bool) browser url nav_type is_main_frame rest :
  deliver DEBUG browser ((url, nav_type, is_main_frame) :: rest) =
    match acceptNavigationRequest DEBUG browser url nav_type is_main_frame with
    | (Ok accepted, browser, out) =>
        let '(r, browser, out') := deliver DEBUG browser rest in
        (cons accepted <$> r, browser, out ++ out')
    | (Raise e, browser, out) => (Raise e, browser, out)
    end.
Proof. reflexivity. Qed.

Lemma code_of_parsed `{Runtime} url (nav_type : Qt.NavigationType)
    (is_main_frame : bool) parsed :
  urllib.urlparse (Qt.toString url) = Ok parsed →
  code_of (url, nav_type, is_main_frame)
    = default "" (head (code_values (urllib.query parsed))).
Proof. intros Hp. unfold code_of. cbn [fst]. by rewrite Hp. Qed.

(** C3, as the code has it: the hook keeps no state between navigation
    requests.  A run handles its requests up to the first one for a URL of
    the scheme that [urlparse] refuses, whose [ValueError] leaves the hook
    and ends the run.  Every request handled for a URL of the scheme is
    refused and hands its code to the popup, the first such request and any
    later one alike, and the other requests are accepted and capture
    nothing: the captures of the run are the codes of the matching requests
    handled, in order, so a run with one such request fires once and a run
    with two fires twice.  The browser window is closed once a matching
    request has been handled, and the page keeps its scheme. *)
Theorem interceptor_captures_every_matching_request `{Runtime} (DEBUG : bool)
    (browser : OAuthBrowser)
    (requests : list (Qt.QUrl * Qt.NavigationType * bool)) :
  let s := page_scheme (page browser) in
  let run := deliver DEBUG browser requests in
  let seen := handled s requests in
  returned run = (if all_handled s requests
                  then Ok ((λ request, negb (matching s request)) <$> requests)
                  else Raise ValueError)
  ∧ (all_handled s requests = true → seen = requests)
  ∧ captures (output run)
      = code_of <$> filter (λ request, matching s request = true) seen
  ∧ length (captures (output run))
      = length (filter (λ request, matching s request = true) seen)
  ∧ browser_visible (state_after run)
      = (if decide (filter (λ request, matching s request = true) seen = [])
         then browser_visible browser else false)
  ∧ page (state_after run) = page browser.
Proof.
  intros s run seen.
  assert (returned run = (if all_handled s requests
                  then Ok ((λ request, negb (matching s request)) <$> requests)
                  else Raise ValueError)
    ∧ (all_handled s requests = true → seen = requests)
    ∧ captures (output run)
        = code_of <$> filter (λ request, matching s request = true) seen
    ∧ browser_visible (state_after run)
        = (if decide (filter (λ request, matching s request = true) seen = [])
           then browser_visible browser else false)
    ∧ page (state_after run) = page browser) as (Hr & Hall & Hc & Hv & Hp).
  { subst run seen s. revert browser.
    induction requests as [|[[url nav_type] is_main_frame] rest IH]; intros browser.
    { done. }
    rewrite deliver_cons, fmap_cons. cbn [handled all_handled forallb].
    fold (all_handled (page_scheme (page browser)) rest).
    destruct (matching (page_scheme (page browser)) (url, nav_type, is_main_frame))
      eqn:Hs.
    - unfold parses. cbn [fst]. unfold matching in Hs. cbn [fst] in Hs.
      destruct (urllib.urlparse (Qt.toString url)) as [parsed|e] eqn:Hparsed.
      + cbn [negb andb]. rewrite filter_cons_True by (unfold matching; by cbn [fst]).
        rewrite (accept_matching DEBUG browser url nav_type is_main_frame parsed
                   Hs Hparsed).
        match goal with
        | |- context [deliver DEBUG ?b rest] =>
            specialize (IH b); destruct (deliver DEBUG b rest) as [[r b'] out'] eqn:Hrun
        end.
        unfold returned, output, state_after in *. cbn [fst snd page browser_visible] in *.
        destruct IH as (-> & IHall & IHc & IHv & IHp).
        split; [by destruct (all_handled _ rest)|].
        split; [by intros ->%IHall|].
        split; [|split; [|done]].
        * rewrite !captures_app, captures_debug_print, IHc, fmap_cons.
          by rewrite (code_of_parsed url nav_type is_main_frame parsed Hparsed).
        * rewrite IHv.
          destruct (decide (_ :: _ = [])) as [Heq|_]; [discriminate Heq|].
          by destruct (decide _).
      + cbn [negb andb].
        rewrite (accept_raises DEBUG browser url nav_type is_main_frame e Hs Hparsed).
        by rewrite (urlparse_raises_ValueError _ _ Hparsed).
    - cbn [negb andb]. rewrite filter_cons_False by (by rewrite Hs).
      unfold matching in Hs. cbn [fst] in Hs.
      rewrite (accept_other DEBUG browser url nav_type is_main_frame Hs).
      specialize (IH browser).
      destruct (deliver DEBUG browser rest) as [[r b'] out'] eqn:Hrun.
      unfold returned, output, state_after in *. cbn [fst snd] in *.
      destruct IH as (-> & IHall & IHc & IHv & IHp).
      split; [by destruct (all_handled _ rest)|].
      split; [by intros ->%IHall|]. done. }
  repeat split; try done. by rewrite Hc, length_fmap.
Qed.

(** C3 as stated fails: after the redirect with [code=ABC123] has been
    captured, a second request for a URL of the scheme is captured too, so
    the run fires twice and the popup then shows the second code. *)
Lemma second_matching_request_is_captured_again :
  captures (output (deliver (H := ascii_runtime) false
             (OAuthBrowser_init "https://idp/authorize" "stellantis")
             [({| Qt.toString := "stellantis://oauth2redirect/fr?code=ABC123&state=xyz" |},
               Qt.NavigationTypeRedirect, true);
              ({| Qt.toString := "stellantis://oauth2redirect/fr?code=XYZ789&state=xyz" |},
               Qt.NavigationTypeRedirect, true)]))
    = ["ABC123"; "XYZ789"]
  ∧ popup_code <$> popup (state_after (deliver (H := ascii_runtime) false
             (OAuthBrowser_init "https://idp/authorize" "stellantis")
             [({| Qt.toString := "stellantis://oauth2redirect/fr?code=ABC123&state=xyz" |},
               Qt.NavigationTypeRedirect, true);
              ({| Qt.toString := "stellantis://oauth2redirect/fr?code=XYZ789&state=xyz" |},
               Qt.NavigationTypeRedirect, true)]))
    = Some "XYZ789"
  ∧ ¬ length (captures (output (deliver (H := ascii_runtime) false
             (OAuthBrowser_init "https://idp/authorize" "stellantis")
             [({| Qt.toString := "stellantis://oauth2redirect/fr?code=ABC123&state=xyz" |},
               Qt.NavigationTypeRedirect, true);
              ({| Qt.toString := "stellantis://oauth2redirect/fr?code=XYZ789&state=xyz" |},
               Qt.NavigationTypeRedirect, true)]))) ≤ 1.
Proof.
  split; [reflexivity|]. split; [reflexivity|]. vm_compute. lia.
Qed.

(** ** The selector screen *)

Lemma get_Some_keys {V} (d : dict V) (k : string) (v : V) :
  get d k = Some v → k ∈ keys d.
Proof.
  unfold keys. induction d as [|[k' v'] d IH]; [done|]. simpl.
  destruct (decide (k = k')) as [->|]; [intros _; apply list_elem_of_here|].
  intros Hget. apply list_elem_of_further. by apply IH.
Qed.

Lemma has_key_configs_spec (configs_ : dict VendorConfig) (b : string) :
  has_key_configs configs_ b = true ↔
  ∃ cfg countries, get configs_ b = Some cfg ∧ configs cfg = Some countries.
Proof.
  unfold has_key_configs. split.
  - destruct (get configs_ b) as [cfg|]; [|done].
    intros [countries Hc]%bool_decide_eq_true. eauto.
  - intros (cfg & countries & -> & Hc). apply bool_decide_eq_true. eauto.
Qed.

(** [update_countries] only touches the country box, and its only
    exception, [KeyError], is handled. *)
Lemma update_countries_frame (self : BrandCountrySelector) (brand_name : string) :
  let m := update_countries self brand_name in
  returned m = Ok ()
  ∧ selector_configs (state_after m) = selector_configs self
  ∧ valid_brands (state_after m) = valid_brands self
  ∧ brand_combo (state_after m) = brand_combo self
  ∧ browser_window (state_after m) = browser_window self
  ∧ selector_visible (state_after m) = selector_visible self.
Proof.
  unfold update_countries, getitem, field.
  destruct (get (selector_configs self) brand_name) as [cfg|]; [|done].
  simpl. by destruct (configs cfg).
Qed.

Lemma country_box_refilled (texts : list string) (combo : Qt.QComboBox) :
  Qt.items (Qt.setCurrentIndex 0 (Qt.addItems texts (Qt.clear combo))) = texts.
Proof. by destruct texts. Qed.

Lemma update_countries_items (self : BrandCountrySelector) (brand_name : string) :
  Qt.items (country_combo (state_after (update_countries self brand_name)))
    = sorted (country_codes (selector_configs self) brand_name).
Proof.
  unfold update_countries, country_codes, getitem, field.
  destruct (get (selector_configs self) brand_name) as [cfg|]; [|done].
  simpl. destruct (configs cfg) as [countries|]; [|done].
  simpl. unfold state_after. simpl. apply country_box_refilled.
Qed.

(** C5, as the code has it: a brand is in the selectable list, which is
    what the brand box shows, exactly when its entry has the key
    ["configs"].  So a brand with at least one country is listed and a
    brand without ["configs"] is not. *)
Theorem brand_listed_iff_configs_key (configs_ : dict VendorConfig) (b : string) :
  let self := state_after (BrandCountrySelector_init configs_) in
  Qt.items (brand_combo self) = valid_brands self
  ∧ (b ∈ valid_brands self ↔
     ∃ cfg countries, get configs_ b = Some cfg ∧ configs cfg = Some countries)
  ∧ (∀ cfg countries country,
       get configs_ b = Some cfg → configs cfg = Some countries →
       country ∈ keys countries → b ∈ valid_brands self)
  ∧ (∀ cfg, get configs_ b = Some cfg → configs cfg = None → b ∉ valid_brands self).
Proof.
  intros self.
  assert (valid_brands self
            = filter (λ b, has_key_configs configs_ b = true) (keys configs_)) as Hv.
  { subst self. unfold BrandCountrySelector_init.
    by rewrite (proj1 (proj2 (proj2 (update_countries_frame _ _)))). }
  assert (b ∈ valid_brands self ↔
     ∃ cfg countries, get configs_ b = Some cfg ∧ configs cfg = Some countries) as Hiff.
  { rewrite Hv, list_elem_of_filter, has_key_configs_spec. split; [by intros []|].
    intros (cfg & countries & Hget & Hc). split; [eauto|]. by eapply get_Some_keys. }
  split; [|split; [exact Hiff|split]].
  - subst self. unfold BrandCountrySelector_init.
    rewrite (proj1 (proj2 (proj2 (proj2 (update_countries_frame _ _))))).
    rewrite (proj1 (proj2 (proj2 (update_countries_frame _ _)))). simpl.
    by destruct (filter _ _).
  - intros cfg countries country Hget Hc _. apply Hiff. eauto.
  - intros cfg Hget Hc [cfg' [countries [Hget' Hc']]]%Hiff. congruence.
Qed.

(** C5 as stated fails: Opel has ["configs"] but no country, and is
    listed. *)
Lemma brand_without_countries_is_listed :
  country_codes sample_configs "Opel" = []
  ∧ "Opel" ∈ valid_brands (state_after (BrandCountrySelector_init sample_configs))
  ∧ Qt.items (brand_combo (state_after (BrandCountrySelector_init sample_configs)))
      = ["Peugeot"; "Opel"].
Proof.
  split; [reflexivity|]. split; [|reflexivity].
  vm_compute. apply list_elem_of_further, list_elem_of_here.
Qed.

(** C8: after [update_countries] the country box holds the country codes of
    the brand, each once per key, in lexicographic order, whatever it held
    before, and nothing when the brand or its ["configs"] is missing; the
    rest of the screen is as before.  Picking another brand in the brand
    box does the same for the brand picked. *)
Theorem country_box_lists_sorted_countries (self : BrandCountrySelector) :
  (∀ brand_name,
     let m := update_countries self brand_name in
     let shown := Qt.items (country_combo (state_after m)) in
     returned m = Ok ()
     ∧ shown ≡ₚ country_codes (selector_configs self) brand_name
     ∧ StronglySorted String.le shown
     ∧ (country_codes (selector_configs self) brand_name = [] → shown = [])
     ∧ brand_combo (state_after m) = brand_combo self)
  ∧ (∀ i,
       let picked := Qt.setCurrentIndex i (brand_combo self) in
       let m := brand_selected self i in
       let shown := Qt.items (country_combo (state_after m)) in
       Qt.currentIndex picked ≠ Qt.currentIndex (brand_combo self) →
       returned m = Ok ()
       ∧ shown ≡ₚ country_codes (selector_configs self) (Qt.currentText picked)
       ∧ StronglySorted String.le shown
       ∧ brand_combo (state_after m) = picked).
Proof.
  assert (∀ self brand_name,
     let m := update_countries self brand_name in
     let shown := Qt.items (country_combo (state_after m)) in
     returned m = Ok ()
     ∧ shown ≡ₚ country_codes (selector_configs self) brand_name
     ∧ StronglySorted String.le shown
     ∧ (country_codes (selector_configs self) brand_name = [] → shown = [])
     ∧ brand_combo (state_after m) = brand_combo self) as Hupdate.
  { clear self. intros self brand_name m shown. subst shown m.
    rewrite update_countries_items.
    destruct (update_countries_frame self brand_name) as (Hr & _ & _ & Hb & _).
    split; [exact Hr|]. split; [apply merge_sort_Permutation|].
    split; [apply (StronglySorted_merge_sort _)|]. split; [|exact Hb].
    by intros ->. }
  split; [apply Hupdate|].
  intros i picked m shown Hchanged. subst shown m. unfold brand_selected.
  fold picked. rewrite decide_False by done.
  match goal with
  | |- context [update_countries ?self' ?b] =>
      destruct (Hupdate self' b) as (Hr & Hp & Hs & _ & Hb)
  end.
  done.
Qed.

Section launch.
Context `{Runtime} (DEBUG : bool).

(** [launch_browser] when a key is missing: the error is logged and shown,
    and the screen stays as it is. *)
Lemma launch_browser_KeyError (self : BrandCountrySelector) (k : string) :
  (cfg ← getitem (selector_configs self) (Qt.currentText (brand_combo self));
   country_cfg ← (countries ← field "configs" (configs cfg);
                  getitem countries (Qt.currentText (country_combo self)));
   oauth_url ← field "oauth_url" (oauth_url cfg);
   scheme ← field "scheme" (scheme cfg);
   locale_code ← field "locale" (locale country_cfg);
   client_id ← field "client_id" (client_id country_cfg);
   mret (auth_url_of oauth_url client_id scheme
           (Qt.currentText (country_combo self)) locale_code, scheme))
    = Raise (KeyError k) →
  launch_browser DEBUG self =
    (Ok (), self,
     [Printed (TFormat "MISSING_KEY_LOG" (ArgExn (KeyError k)));
      Critical (T "MISSING_KEY_TITLE")
        (TFormat "MISSING_KEY_MESSAGE" (ArgExn (KeyError k)))]).
Proof. intros Hbody. unfold launch_browser. by rewrite Hbody. Qed.

End launch.

(** The lookups of [launch_browser] stop at the key [k], which the
    hypotheses show to be missing. *)
Ltac missing k :=
  exists k; split;
  [ by econstructor
  | apply launch_browser_KeyError; unfold getitem, field;
    repeat match goal with
           | Heq : ?lookup = _ |- context [?lookup] => rewrite Heq; simpl
           end;
    reflexivity ].

(** C7: when one of the keys that [launch_browser] expects for the selected
    brand and country is missing (the brand, ["configs"], the country,
    ["oauth_url"], ["scheme"], ["locale"] or ["client_id"]), it logs and
    shows the error for a missing key, the first one in the order of its
    lookups, and leaves the screen as it was: no browser window is made
    and the selector stays open. *)
Theorem launch_browser_reports_missing_key `{Runtime} (DEBUG : bool)
    (self : BrandCountrySelector) (k : string) :
  let brand := Qt.currentText (brand_combo self) in
  let country := Qt.currentText (country_combo self) in
  absent_key (selector_configs self) brand country k →
  ∃ k', absent_key (selector_configs self) brand country k'
    ∧ launch_browser DEBUG self =
        (Ok (), self,
         [Printed (TFormat "MISSING_KEY_LOG" (ArgExn (KeyError k')));
          Critical (T "MISSING_KEY_TITLE")
            (TFormat "MISSING_KEY_MESSAGE" (ArgExn (KeyError k')))])
    ∧ browser_window (state_after (launch_browser DEBUG self)) = browser_window self
    ∧ selector_visible (state_after (launch_browser DEBUG self)) = selector_visible self.
Proof.
  intros brand country Habsent. subst brand country.
  assert (∃ k', absent_key (selector_configs self)
                  (Qt.currentText (brand_combo self))
                  (Qt.currentText (country_combo self)) k'
    ∧ launch_browser DEBUG self =
        (Ok (), self,
         [Printed (TFormat "MISSING_KEY_LOG" (ArgExn (KeyError k')));
          Critical (T "MISSING_KEY_TITLE")
            (TFormat "MISSING_KEY_MESSAGE" (ArgExn (KeyError k')))])) as (k' & Hk' & Hl).
  { destruct (get (selector_configs self) (Qt.currentText (brand_combo self)))
      as [cfg|] eqn:Hcfg; [|missing (Qt.currentText (brand_combo self))].
    destruct (configs cfg) as [countries|] eqn:Hcountries; [|missing "configs"].
    destruct (get countries (Qt.currentText (country_combo self)))
      as [country_cfg|] eqn:Hcountry; [|missing (Qt.currentText (country_combo self))].
    destruct (oauth_url cfg) as [o|] eqn:Ho; [|missing "oauth_url"].
    destruct (scheme cfg) as [s|] eqn:Hs; [|missing "scheme"].
    destruct (locale country_cfg) as [l|] eqn:Hl; [|missing "locale"].
    destruct (client_id country_cfg) as [c|] eqn:Hc; [|missing "client_id"].
    exfalso. inversion Habsent; congruence. }
  exists k'. by rewrite Hl.
Qed.

Lemma launch_browser_reports_missing_key_witness :
  absent_key (selector_configs sample_selector)
    (Qt.currentText (brand_combo sample_selector))
    (Qt.currentText (country_combo sample_selector)) ""
  ∧ ∃ k', absent_key (selector_configs sample_selector)
            (Qt.currentText (brand_combo sample_selector))
            (Qt.currentText (country_combo sample_selector)) k'
    ∧ launch_browser (H := ascii_runtime) true sample_selector =
        (Ok (), sample_selector,
         [Printed (TFormat "MISSING_KEY_LOG" (ArgExn (KeyError k')));
          Critical (T "MISSING_KEY_TITLE")
            (TFormat "MISSING_KEY_MESSAGE" (ArgExn (KeyError k')))])
    ∧ browser_window (state_after (launch_browser (H := ascii_runtime) true sample_selector))
        = browser_window sample_selector
    ∧ selector_visible (state_after (launch_browser (H := ascii_runtime) true sample_selector))
        = selector_visible sample_selector.
Proof.
  split.
  - eapply (absent_country _ _ _ _ []); reflexivity.
  - apply (@launch_browser_reports_missing_key ascii_runtime true sample_selector "").
    eapply (absent_country _ _ _ _ []); reflexivity.
Defined.

(** C4: when the selected brand and country have all their keys,
    [launch_browser] opens the browser on the URL of the template, made of
    the brand's [oauth_url] and [scheme], the country's [client_id] and
    [locale], and the country code in lower case; the page watches the
    brand's scheme, and the selector closes. *)
Theorem launch_browser_builds_authorization_url `{Runtime} (DEBUG : bool)
    (self : BrandCountrySelector) (cfg : VendorConfig)
    (countries : dict CountryConfig) (country_cfg : CountryConfig)
    (oauth_url_ scheme_ locale_code client_id_ : string) :
  let brand := Qt.currentText (brand_combo self) in
  let country := Qt.currentText (country_combo self) in
  get (selector_configs self) brand = Some cfg →
  configs cfg = Some countries →
  get countries country = Some country_cfg →
  oauth_url cfg = Some oauth_url_ →
  scheme cfg = Some scheme_ →
  locale country_cfg = Some locale_code →
  client_id country_cfg = Some client_id_ →
  let auth_url :=
    oauth_url_ +:+ "/am/oauth2/authorize?client_id=" +:+ client_id_
      +:+ "&response_type=code&redirect_uri=" +:+ scheme_
      +:+ "://oauth2redirect/" +:+ str_lower country
      +:+ "&scope=openid%20profile%20email&locale=" +:+ locale_code in
  let m := launch_browser DEBUG self in
  returned m = Ok ()
  ∧ browser_window (state_after m)
      = Some {| page := {| page_scheme := scheme_ |};
                loaded_url := {| Qt.toString := auth_url |};
                popup := None;
                browser_visible := true |}
  ∧ selector_visible (state_after m) = false
  ∧ Shown (BrowserWindow auth_url) ∈ output m.
Proof.
  intros brand country Hcfg Hcountries Hcountry Ho Hs Hl Hc auth_url m.
  subst m. unfold launch_browser, getitem, field. fold brand country.
  rewrite Hcfg. simpl. rewrite Hcountries. simpl. rewrite Hcountry. simpl.
  rewrite Ho. simpl. rewrite Hs. simpl. rewrite Hl. simpl. rewrite Hc. simpl.
  unfold returned, state_after, output. simpl.
  assert (auth_url_of oauth_url_ client_id_ scheme_ country locale_code = auth_url) as ->.
  { unfold auth_url_of. subst auth_url. do 3 f_equal. }
  repeat split; try done.
  apply elem_of_app. right. apply list_elem_of_here.
Qed.

Lemma launch_browser_builds_authorization_url_witness :
  Qt.currentText (brand_combo (state_after (BrandCountrySelector_init sample_configs)))
    = "Peugeot"
  ∧ Qt.currentText (country_combo (state_after (BrandCountrySelector_init sample_configs)))
    = "BE"
  ∧ browser_window (state_after (launch_browser (H := ascii_runtime) false
        (state_after (BrandCountrySelector_init sample_configs))))
    = Some {| page := {| page_scheme := "mymap" |};
              loaded_url := {| Qt.toString :=
                "https://idpcvs.peugeot.com/am/oauth2/authorize?client_id=1eebc2d6&response_type=code&redirect_uri=mymap://oauth2redirect/be&scope=openid%20profile%20email&locale=fr-BE" |};
              popup := None;
              browser_visible := true |}.
Proof.
  split; [reflexivity|]. split; [reflexivity|].
  refine (proj1 (proj2 (@launch_browser_builds_authorization_url ascii_runtime false
    (state_after (BrandCountrySelector_init sample_configs))
    {| oauth_url := Some "https://idpcvs.peugeot.com"; scheme := Some "mymap";
       configs := Some [("FR", {| locale := Some "fr-FR"; client_id := Some "1eebc2d5" |});
                        ("BE", {| locale := Some "fr-BE"; client_id := Some "1eebc2d6" |})] |}
    [("FR", {| locale := Some "fr-FR"; client_id := Some "1eebc2d5" |});
     ("BE", {| locale := Some "fr-BE"; client_id := Some "1eebc2d6" |})]
    {| locale := Some "fr-BE"; client_id := Some "1eebc2d6" |}
    "https://idpcvs.peugeot.com" "mymap" "fr-BE" "1eebc2d6" _ _ _ _ _ _ _)));
    reflexivity.
Defined.

(** ** Start-up *)

Section startup.
Context (DEBUG : bool).

(** [download_configs] once the application exists: a failure of the
    request or of the parser is logged and shown, and the process exits
    with status 1; a document is returned as it is. *)
Lemma download_configs_with_application (fetched : result (dict VendorConfig)) :
  download_configs DEBUG true fetched =
    match fetched with
    | Ok data =>
        (Completes (Ok data),
         debug_print DEBUG [TFormat "CONFIGS_DOWNLOADED" (ArgConfigs data)])
    | Raise e =>
        if is_Exception e then
          (Completes (Raise (SystemExit 1)),
           [Printed (TFormat "CONFIGS_ERROR" (ArgExn e));
            Critical (T "ERROR_TITLE") (TFormat "ERROR_MESSAGE" (ArgExn e))])
        else (Completes (Raise e), [])
    end.
Proof. destruct fetched as [data|e]; [done|]. simpl. by destruct (is_Exception e). Qed.

End startup.

(** C6, where the code departs from it: [main] calls [download_configs]
    before it makes the [QApplication], so when the request or the parser
    fails, the error is printed, and then the dialog cannot be made: Qt stops
    the process.  No dialog is shown and the status is not 1.  A document
    that arrives is passed on to the selector screen as it is. *)
Theorem main_aborts_when_the_fetch_fails (DEBUG : bool) :
  (∀ screen_dpi e, main DEBUG screen_dpi (Raise e) =
          if is_Exception e
          then (Aborts,
                [Printed (TFormat "CONFIGS_ERROR" (ArgExn e));
                 QtFatal "QWidget: Must construct a QApplication before a QWidget"])
          else (Completes (Raise e), []))
  ∧ (∀ screen_dpi e title message,
       Critical title message ∉ (main DEBUG screen_dpi (Raise e)).2)
  ∧ (∀ screen_dpi what,
       (main DEBUG screen_dpi (Raise (OtherException what))).1 = Aborts)
  ∧ (∀ screen_dpi data, ∃ selector,
       (main DEBUG screen_dpi (Ok data)).1 = Completes (Ok selector)
       ∧ selector_configs selector = data).
Proof.
  assert (∀ screen_dpi e, main DEBUG screen_dpi (Raise e) =
          if is_Exception e
          then (Aborts,
                [Printed (TFormat "CONFIGS_ERROR" (ArgExn e));
                 QtFatal "QWidget: Must construct a QApplication before a QWidget"])
          else (Completes (Raise e), [])) as Hfail.
  { intros screen_dpi e. unfold main. simpl. by destruct (is_Exception e). }
  split; [exact Hfail|]. split; [|split; [done|]].
  - intros screen_dpi e title message Hin. rewrite Hfail in Hin.
    destruct (is_Exception e); simpl in Hin.
    + apply elem_of_cons in Hin as [Hin|Hin]; [discriminate|].
      apply elem_of_cons in Hin as [Hin|Hin]; [discriminate|].
      by apply not_elem_of_nil in Hin.
    + by apply not_elem_of_nil in Hin.
  - intros screen_dpi data. unfold main. simpl.
    destruct (update_countries_frame
      {| selector_configs := data;
         valid_brands := filter (λ b, has_key_configs data b = true) (keys data);
         brand_combo := Qt.addItems
           (filter (λ b, has_key_configs data b = true) (keys data)) Qt.QComboBox_new;
         country_combo := Qt.QComboBox_new;
         browser_window := None;
         selector_visible := false |}
      (Qt.currentText (Qt.addItems
         (filter (λ b, has_key_configs data b = true) (keys data)) Qt.QComboBox_new)))
      as (Hr & Hc & _).
    unfold BrandCountrySelector_init.
    destruct (update_countries _ _) as [[r selector] out].
    unfold returned, state_after in *. simpl in *. subst r.
    eexists. split; [reflexivity|]. exact Hc.
Qed.

(** * More of the program *)

(** ** What the hook can do *)

(** One request: it is refused and its code shown, or handed on with
    nothing changed, or [urlparse] raises and nothing has changed. *)
Lemma accept_cases `{Runtime} (DEBUG : bool) browser url nav_type is_main_frame :
  let m := acceptNavigationRequest DEBUG browser url nav_type is_main_frame in
  (∃ code,
     returned m = Ok false ∧ captures (output m) = [code]
     ∧ state_after m = {| page := page browser; loaded_url := loaded_url browser;
                          popup := Some {| popup_code := code; popup_visible := true |};
                          browser_visible := false |}
     ∧ (DEBUG = false →
        output m = [Shown (PopupWindow code);
                    Closed (BrowserWindow (Qt.toString (loaded_url browser)))]))
  ∨ (returned m = Ok true ∧ state_after m = browser ∧ output m = [])
  ∨ (returned m = Raise ValueError ∧ state_after m = browser ∧ output m = []
     ∧ Str.startswith (Qt.toString url) (page_scheme (page browser) +:+ "://") = true).
Proof.
  intros m. subst m.
  destruct (Str.startswith (Qt.toString url) (page_scheme (page browser) +:+ "://"))
    eqn:Hs.
  - destruct (urllib.urlparse (Qt.toString url)) as [parsed|e] eqn:Hp.
    + left. eexists.
      rewrite (accept_matching DEBUG browser url nav_type is_main_frame parsed Hs Hp).
      unfold returned, state_after, output. simpl.
      split; [done|]. split; [by rewrite captures_app, captures_debug_print|].
      split; [done|]. by intros ->.
    + right. right.
      rewrite (accept_raises DEBUG browser url nav_type is_main_frame e Hs Hp).
      by rewrite (urlparse_raises_ValueError _ _ Hp).
  - right. left. by rewrite (accept_other DEBUG browser url nav_type is_main_frame Hs).
Qed.

(** X1: the only exception that leaves the hook is the [ValueError] of
    [urlparse], for a URL of the scheme; [params.get("code", [""])[0]]
    never raises.  Then no popup is made, the browser window is left as it
    was and nothing is printed. *)
Theorem hook_raises_only_ValueError `{Runtime} (DEBUG : bool) (browser : OAuthBrowser)
    (url : Qt.QUrl) (nav_type : Qt.NavigationType) (is_main_frame : bool) (e : exn) :
  returned (acceptNavigationRequest DEBUG browser url nav_type is_main_frame) = Raise e →
  e = ValueError
  ∧ urllib.urlparse (Qt.toString url) = Raise ValueError
  ∧ Str.startswith (Qt.toString url) (page_scheme (page browser) +:+ "://") = true
  ∧ state_after (acceptNavigationRequest DEBUG browser url nav_type is_main_frame) = browser
  ∧ output (acceptNavigationRequest DEBUG browser url nav_type is_main_frame) = [].
Proof.
  intros Hraise.
  destruct (Str.startswith (Qt.toString url) (page_scheme (page browser) +:+ "://"))
    eqn:Hs.
  - destruct (urllib.urlparse (Qt.toString url)) as [parsed|e'] eqn:Hp.
    + by rewrite (accept_matching DEBUG browser url nav_type is_main_frame parsed Hs Hp)
        in Hraise.
    + rewrite (accept_raises DEBUG browser url nav_type is_main_frame e' Hs Hp) in Hraise |- *.
      pose proof (urlparse_raises_ValueError _ _ Hp) as ->.
      unfold returned in Hraise. simpl in Hraise. by simplify_eq.
  - by rewrite (accept_other DEBUG browser url nav_type is_main_frame Hs) in Hraise.
Qed.

Lemma hook_raises_only_ValueError_witness :
  returned (acceptNavigationRequest (H := ascii_runtime) true
              (OAuthBrowser_init "https://idp/authorize" "stellantis")
              {| Qt.toString := "stellantis://[oauth2redirect/fr?code=ABC123" |}
              Qt.NavigationTypeRedirect true) = Raise ValueError
  ∧ output (acceptNavigationRequest (H := ascii_runtime) true
              (OAuthBrowser_init "https://idp/authorize" "stellantis")
              {| Qt.toString := "stellantis://[oauth2redirect/fr?code=ABC123" |}
              Qt.NavigationTypeRedirect true) = [].
Proof.
  split; [reflexivity|].
  refine (proj2 (proj2 (proj2 (proj2 (@hook_raises_only_ValueError ascii_runtime true
    (OAuthBrowser_init "https://idp/authorize" "stellantis")
    {| Qt.toString := "stellantis://[oauth2redirect/fr?code=ABC123" |}
    Qt.NavigationTypeRedirect true ValueError _))))).
  reflexivity.
Defined.

(** ** What [parse_qs] keeps *)

Lemma app_empty (a b : string) : a +:+ b = "" → a = "" ∧ b = "".
Proof. destruct a; [done|]. by rewrite app_String. Qed.

Lemma unquote_to_bytes_empty (s : string) : urllib.unquote_to_bytes s = "" → s = "".
Proof. destruct s; [done|]. simpl. by repeat case_match. Qed.

Lemma decode_replace_empty (s : string) : urllib.decode_replace s = "" → s = "".
Proof.
  destruct s; [done|]. simpl. unfold urllib.replacement.
  repeat case_match; rewrite ?app_String; discriminate.
Qed.

Lemma unquoted_parts_empty (run s : string) :
  urllib.unquoted_parts run s = "" → run = "" ∧ s = "".
Proof.
  revert run. induction s as [|c s IH]; intros run; simpl.
  - intros Hd%decode_replace_empty%unquote_to_bytes_empty. done.
  - destruct (Str.isascii c).
    + intros [[_ Hc]%app_empty _]%IH. discriminate Hc.
    + intros [_ Hc]%app_empty. discriminate Hc.
Qed.

(** [unquote] never makes a text empty. *)
Lemma unquote_empty (s : string) : urllib.unquote s = "" → s = "".
Proof.
  unfold urllib.unquote. destruct (Str.contains "%" s); [|done].
  by intros [_ ?]%unquoted_parts_empty.
Qed.

Lemma parse_field_values (name_value : string) :
  Forall (λ f, f.2 ≠ "") (urllib.parse_field name_value).
Proof.
  unfold urllib.parse_field. destruct name_value as [|c rest]; [constructor|].
  destruct (Str.partition "=" (String c rest)) as [name [value|]]; [|constructor].
  destruct value as [|v value]; [constructor|].
  repeat constructor. simpl. intros Hu%unquote_empty. discriminate Hu.
Qed.

Lemma parse_qsl_values (qs : string) :
  Forall (λ f, f.2 ≠ "") (urllib.parse_qsl qs).
Proof.
  unfold urllib.parse_qsl. apply Forall_concat, Forall_fmap, Forall_true.
  intros f. apply parse_field_values.
Qed.

Lemma values_of_not_blank (k qs : string) :
  Forall (λ v, v ≠ "") (values_of k (urllib.parse_qsl qs)).
Proof.
  unfold values_of. apply Forall_fmap.
  pose proof (parse_qsl_values qs) as Hall. rewrite Forall_forall in Hall |- *.
  intros f [_ Hf]%list_elem_of_filter. by apply Hall.
Qed.

(** X2: the [dict] of [parse_qs] has a name as a key exactly when a field
    of that name carries a value; the key then maps to the values of these
    fields in the order of the query string, a list that is never empty and
    holds no empty string. *)
Theorem parse_qs_keeps_the_valued_fields (qs k : string) :
  match urllib.parse_qs qs !! k with
  | Some vs =>
      vs = values_of k (urllib.parse_qsl qs) ∧ vs ≠ [] ∧ Forall (λ v, v ≠ "") vs
  | None => values_of k (urllib.parse_qsl qs) = []
  end.
Proof.
  rewrite parse_qs_lookup. pose proof (values_of_not_blank k qs) as Hv.
  by destruct (values_of k (urllib.parse_qsl qs)).
Qed.

(** X3: for a URL of the scheme that [urlparse] accepts, the code shown is
    empty exactly when no field named [code] carries a value: an empty code
    always means that the redirect brought none. *)
Theorem empty_code_means_no_code `{Runtime} (DEBUG : bool) (browser : OAuthBrowser)
    (url : Qt.QUrl) (nav_type : Qt.NavigationType) (is_main_frame : bool)
    (parsed : urllib.ParseResult) :
  Str.startswith (Qt.toString url) (page_scheme (page browser) +:+ "://") = true →
  urllib.urlparse (Qt.toString url) = Ok parsed →
  captures (output (acceptNavigationRequest DEBUG browser url nav_type is_main_frame))
    = [""]
  ↔ code_values (urllib.query parsed) = [].
Proof.
  intros Hs Hp.
  rewrite (accept_matching DEBUG browser url nav_type is_main_frame parsed Hs Hp).
  unfold output. simpl. rewrite captures_app, captures_debug_print. simpl.
  pose proof (values_of_not_blank "code" (urllib.query parsed)) as Hv.
  unfold code_values.
  destruct (values_of "code" (urllib.parse_qsl (urllib.query parsed))) as [|v vs];
    [done|].
  simpl. apply Forall_cons_1 in Hv as [Hv _]. split; [|done].
  intros [= ->]. done.
Qed.

Lemma empty_code_means_no_code_witness :
  Str.startswith "mym://oauth2redirect/de?state=1&code=" ("mym" +:+ "://") = true
  ∧ (captures (output (acceptNavigationRequest (H := ascii_runtime) false
                (OAuthBrowser_init "https://idp/authorize" "mym")
                {| Qt.toString := "mym://oauth2redirect/de?state=1&code=" |}
                Qt.NavigationTypeRedirect true)) = [""]
     ↔ code_values "state=1&code=" = []).
Proof.
  split; [reflexivity|].
  apply (@empty_code_means_no_code ascii_runtime false
           (OAuthBrowser_init "https://idp/authorize" "mym")
           {| Qt.toString := "mym://oauth2redirect/de?state=1&code=" |}
           Qt.NavigationTypeRedirect true
           {| urllib.scheme := "mym"; urllib.netloc := "oauth2redirect";
              urllib.path := "/de"; urllib.params := "";
              urllib.query := "state=1&code="; urllib.fragment := "" |});
    reflexivity.
Defined.

(** ** The popup and the clipboard *)

(** X4: after a run of navigation requests, the popup is the one of the
    last code captured, it is visible, and its button puts exactly that code
    on the clipboard, whatever the clipboard held; when the run captured
    nothing, the popup of the browser window is as before. *)
Theorem copy_button_copies_last_captured_code `{Runtime} (DEBUG : bool)
    (browser : OAuthBrowser)
    (requests : list (Qt.QUrl * Qt.NavigationType * bool)) (clipboard : string) :
  match last (captures (output (deliver DEBUG browser requests))) with
  | Some code =>
      ∃ shown, popup (state_after (deliver DEBUG browser requests)) = Some shown
        ∧ popup_visible shown = true
        ∧ copy_button_clicked shown clipboard = code
  | None => popup (state_after (deliver DEBUG browser requests)) = popup browser
  end.
Proof.
  revert browser.
  induction requests as [|[[url nav_type] is_main_frame] rest IH]; intros browser.
  { done. }
  rewrite deliver_cons.
  destruct (accept_cases DEBUG browser url nav_type is_main_frame)
    as [(code & Hr & Hc & Hst & _)|[(Hr & Hst & Hout)|(Hr & Hst & Hout & _)]];
    destruct (acceptNavigationRequest DEBUG browser url nav_type is_main_frame)
      as [[r browser'] out];
    unfold returned, state_after, output in *; simpl in *; subst.
  - specialize (IH {| page := page browser; loaded_url := loaded_url browser;
                      popup := Some {| popup_code := code; popup_visible := true |};
                      browser_visible := false |}).
    destruct (deliver DEBUG _ rest) as [[r' browser''] out']. simpl in *.
    rewrite captures_app, Hc. simpl.
    destruct (captures out') as [|c cs] eqn:Hcs; simpl in *.
    + rewrite IH. eauto.
    + destruct (last (c :: cs)) eqn:Hlast; [exact IH|].
      by apply last_None in Hlast.
  - specialize (IH browser).
    by destruct (deliver DEBUG browser rest) as [[r' browser''] out'].
  - done.
Qed.

(** ** The console *)

Lemma no_print_cons (e : event) (out : list event) :
  is_Printed e = false → Forall (λ e, is_Printed e = false) out →
  Forall (λ e, is_Printed e = false) (e :: out).
Proof. by constructor. Qed.

(** X5: while [DEBUG] is off the program keeps codes and authorization URLs
    off the console: a run of navigation requests prints nothing,
    [javaScriptConsoleMessage] prints nothing and does not call the base
    class, a configuration that arrives is not printed, and the only line
    that [launch_browser] can print is the one for a missing key. *)
Theorem console_is_silent_without_DEBUG `{Runtime} :
  (∀ browser requests,
     Forall (λ e, is_Printed e = false) (output (deliver false browser requests)))
  ∧ (∀ level message lineNumber sourceID,
       javaScriptConsoleMessage false level message lineNumber sourceID = ([], false))
  ∧ (∀ qapp data, (download_configs false qapp (Ok data)).2 = [])
  ∧ (∀ self line,
       Printed line ∈ output (launch_browser false self) →
       ∃ k, line = TFormat "MISSING_KEY_LOG" (ArgExn (KeyError k))).
Proof.
  split; [|split; [done|split; [done|]]].
  - intros browser requests. revert browser.
    induction requests as [|[[url nav_type] is_main_frame] rest IH]; intros browser.
    { constructor. }
    rewrite deliver_cons.
    destruct (accept_cases false browser url nav_type is_main_frame)
      as [(code & Hr & _ & Hst & Hout)|[(Hr & Hst & Hout)|(Hr & Hst & Hout & _)]];
      destruct (acceptNavigationRequest false browser url nav_type is_main_frame)
        as [[r browser'] out];
      unfold returned, state_after, output in *; simpl in *; subst.
    + specialize (Hout eq_refl). subst out.
      match goal with |- context [deliver false ?b rest] => specialize (IH b) end.
      destruct (deliver false _ rest) as [[r' browser''] out']. simpl in *.
      by repeat apply no_print_cons.
    + specialize (IH browser).
      by destruct (deliver false browser rest) as [[r' browser''] out'].
    + constructor.
  - intros self line. unfold launch_browser, debug_print, output.
    repeat case_match; simpl; intros Hin;
      repeat (apply elem_of_cons in Hin as [Hin|Hin]; simplify_eq);
      try (by apply not_elem_of_nil in Hin); eauto.
Qed.

(** ** The selector screen over its life *)

Lemma keys_get_Some {V} (d : dict V) (k : string) :
  k ∈ keys d → is_Some (get d k).
Proof.
  unfold keys. induction d as [|[k' v'] d IH]; simpl.
  - by intros ?%not_elem_of_nil.
  - destruct (decide (k = k')); [eauto|].
    intros [?|?]%elem_of_cons; [done | by apply IH].
Qed.

Lemma country_codes_elem (configs_ : dict VendorConfig) (brand country : string) :
  country ∈ country_codes configs_ brand →
  ∃ cfg countries country_cfg,
    get configs_ brand = Some cfg ∧ configs cfg = Some countries
    ∧ get countries country = Some country_cfg.
Proof.
  unfold country_codes.
  destruct (get configs_ brand) as [cfg|] eqn:Hcfg; [|by intros ?%not_elem_of_nil].
  destruct (configs cfg) as [countries|] eqn:Hcountries;
    [|by intros ?%not_elem_of_nil].
  intros [country_cfg Hc]%keys_get_Some.
  exists cfg, countries, country_cfg. done.
Qed.

Lemma sorted_elem (names : list string) (x : string) : x ∈ sorted names ↔ x ∈ names.
Proof. unfold sorted. by rewrite merge_sort_Permutation. Qed.

Lemma currentText_elem (combo : Qt.QComboBox) (i : nat) :
  Qt.currentIndex combo = Some i → i < length (Qt.items combo) →
  Qt.currentText combo ∈ Qt.items combo.
Proof.
  unfold Qt.currentText. intros -> Hi.
  destruct (lookup_lt_is_Some_2 _ _ Hi) as [x Hx]. rewrite Hx. simpl.
  by eapply list_elem_of_lookup_2.
Qed.

Lemma country_box_after_update (self : BrandCountrySelector) (brand_name : string) :
  country_combo (state_after (update_countries self brand_name))
    = Qt.setCurrentIndex 0
        (Qt.addItems (sorted (country_codes (selector_configs self) brand_name))
           Qt.QComboBox_new).
Proof.
  unfold update_countries, country_codes, getitem, field.
  destruct (get (selector_configs self) brand_name) as [cfg|]; [|done].
  simpl. by destruct (configs cfg).
Qed.


Lemma setCurrentIndex_valid (i j : nat) (combo : Qt.QComboBox) :
  Qt.currentIndex (Qt.setCurrentIndex i combo) = Some j →
  j < length (Qt.items (Qt.setCurrentIndex i combo)).
Proof. unfold Qt.setCurrentIndex. simpl. case_decide; by intros [= <-]. Qed.

Lemma update_countries_consistent (self : BrandCountrySelector) (brand_name : string) :
  Qt.currentText (brand_combo self) = brand_name →
  selector_consistent (selector_configs self)
    (state_after (update_countries self brand_name)).
Proof.
  intros Hb.
  destruct (update_countries_frame self brand_name) as (_ & Hcfg & _ & Hbrand & _).
  split; [exact Hcfg|]. rewrite Hbrand, Hb, country_box_after_update.
  split; [exact (country_box_refilled _ Qt.QComboBox_new)|]. intros i.
  exact (setCurrentIndex_valid 0 i _).
Qed.

Lemma init_consistent (configs_ : dict VendorConfig) :
  selector_consistent configs_ (state_after (BrandCountrySelector_init configs_)).
Proof.
  unfold BrandCountrySelector_init.
  by apply (update_countries_consistent
    {| selector_configs := configs_;
       valid_brands := filter (λ b, has_key_configs configs_ b = true) (keys configs_);
       brand_combo := Qt.addItems
         (filter (λ b, has_key_configs configs_ b = true) (keys configs_))
         Qt.QComboBox_new;
       country_combo := Qt.QComboBox_new;
       browser_window := None;
       selector_visible := false |}).
Qed.

Lemma step_consistent (configs_ : dict VendorConfig) (self : BrandCountrySelector)
    (ev : selector_event) :
  selector_consistent configs_ self →
  selector_consistent configs_ (selector_step self ev).
Proof.
  intros (Hcfg & Hitems & Hindex). destruct ev as [i|i]; simpl.
  - unfold brand_selected. case_decide as Hsame.
    + unfold state_after. simpl. split; [done|]. split; [|done].
      cbn [country_combo brand_combo]. rewrite Hitems. unfold Qt.currentText.
      by rewrite Hsame.
    + subst configs_.
      by apply (update_countries_consistent
        {| selector_configs := selector_configs self;
           valid_brands := valid_brands self;
           brand_combo := Qt.setCurrentIndex i (brand_combo self);
           country_combo := country_combo self;
           browser_window := browser_window self;
           selector_visible := selector_visible self |}).
  - unfold state_after. simpl. split; [done|]. split; [done|].
    intros j. exact (setCurrentIndex_valid i j _).
Qed.

Lemma selector_after_consistent (configs_ : dict VendorConfig)
    (evs : list selector_event) :
  selector_consistent configs_ (selector_after configs_ evs).
Proof.
  unfold selector_after.
  induction evs as [|ev evs IH] using rev_ind; [apply init_consistent|].
  rewrite foldl_app. simpl. by apply step_consistent.
Qed.

Section launch_outcome.
Context `{Runtime} (DEBUG : bool).

(** [launch_browser] when every key is there *)
Lemma launch_browser_success (self : BrandCountrySelector) cfg countries country_cfg
    oauth_url_ scheme_ locale_code client_id_ :
  get (selector_configs self) (Qt.currentText (brand_combo self)) = Some cfg →
  configs cfg = Some countries →
  get countries (Qt.currentText (country_combo self)) = Some country_cfg →
  oauth_url cfg = Some oauth_url_ →
  scheme cfg = Some scheme_ →
  locale country_cfg = Some locale_code →
  client_id country_cfg = Some client_id_ →
  launch_browser DEBUG self =
    (Ok (),
     {| selector_configs := selector_configs self;
        valid_brands := valid_brands self;
        brand_combo := brand_combo self;
        country_combo := country_combo self;
        browser_window :=
          Some {| page := {| page_scheme := scheme_ |};
                  loaded_url :=
                    {| Qt.toString :=
                         auth_url_of oauth_url_ client_id_ scheme_
                           (Qt.currentText (country_combo self)) locale_code |};
                  popup := None;
                  browser_visible := true |};
        selector_visible := false |},
     debug_print DEBUG
       [TFormat "AUTH_URL_LOG"
          (ArgStr (auth_url_of oauth_url_ client_id_ scheme_
                     (Qt.currentText (country_combo self)) locale_code))]
       ++ [Shown (BrowserWindow
                    (auth_url_of oauth_url_ client_id_ scheme_
                       (Qt.currentText (country_combo self)) locale_code));
           Closed SelectorWindow]).
Proof.
  intros Hcfg Hcountries Hcountry Ho Hs Hl Hc.
  unfold launch_browser, getitem, field.
  rewrite Hcfg. simpl. rewrite Hcountries. simpl. rewrite Hcountry. simpl.
  rewrite Ho. simpl. rewrite Hs. simpl. rewrite Hl. simpl. by rewrite Hc.
Qed.

End launch_outcome.

(** X7: whatever brands and countries the user picks on the selector
    screen, while a country is selected the brand, its ["configs"] and the
    country are entries of the document.  Pressing the button then either
    opens the browser, on the brand's scheme, and closes the selector, or
    reports one of ["oauth_url"], ["scheme"], ["locale"] and ["client_id"]
    as missing and changes nothing. *)
Theorem selected_country_is_configured `{Runtime} (DEBUG : bool)
    (configs_ : dict VendorConfig) (evs : list selector_event) :
  let self := selector_after configs_ evs in
  let brand := Qt.currentText (brand_combo self) in
  let country := Qt.currentText (country_combo self) in
  is_Some (Qt.currentIndex (country_combo self)) →
  (∃ cfg countries country_cfg,
     get configs_ brand = Some cfg ∧ configs cfg = Some countries
     ∧ get countries country = Some country_cfg
     ∧ ((∃ browser,
           browser_window (state_after (launch_browser DEBUG self)) = Some browser
           ∧ scheme cfg = Some (page_scheme (page browser))
           ∧ selector_visible (state_after (launch_browser DEBUG self)) = false)
        ∨ (∃ k, k ∈ ["oauth_url"; "scheme"; "locale"; "client_id"]
             ∧ launch_browser DEBUG self =
                 (Ok (), self,
                  [Printed (TFormat "MISSING_KEY_LOG" (ArgExn (KeyError k)));
                   Critical (T "MISSING_KEY_TITLE")
                     (TFormat "MISSING_KEY_MESSAGE" (ArgExn (KeyError k)))])))).
Proof.
  intros self brand country [i Hi].
  destruct (selector_after_consistent configs_ evs) as (Hcfg & Hitems & Hindex).
  fold self in Hcfg, Hitems, Hindex.
  assert (country ∈ country_codes configs_ brand) as Hin.
  { apply sorted_elem. fold brand in Hitems. rewrite <- Hitems.
    eapply currentText_elem; [exact Hi | by apply Hindex]. }
  destruct (country_codes_elem _ _ _ Hin)
    as (cfg & countries & country_cfg & Hget & Hcountries & Hcountry).
  exists cfg, countries, country_cfg. do 3 (split; [done|]).
  rewrite <- Hcfg in Hget. subst brand country.
  destruct (oauth_url cfg) as [o|] eqn:Ho.
  2:{ right. exists "oauth_url". split; [set_solver|].
      apply launch_browser_KeyError. unfold getitem, field.
      rewrite Hget. simpl. rewrite Hcountries. simpl. rewrite Hcountry. simpl.
      by rewrite Ho. }
  destruct (scheme cfg) as [s|] eqn:Hs.
  2:{ right. exists "scheme". split; [set_solver|].
      apply launch_browser_KeyError. unfold getitem, field.
      rewrite Hget. simpl. rewrite Hcountries. simpl. rewrite Hcountry. simpl.
      rewrite Ho. simpl. by rewrite Hs. }
  destruct (locale country_cfg) as [l|] eqn:Hl.
  2:{ right. exists "locale". split; [set_solver|].
      apply launch_browser_KeyError. unfold getitem, field.
      rewrite Hget. simpl. rewrite Hcountries. simpl. rewrite Hcountry. simpl.
      rewrite Ho. simpl. rewrite Hs. simpl. by rewrite Hl. }
  destruct (client_id country_cfg) as [c|] eqn:Hc.
  2:{ right. exists "client_id". split; [set_solver|].
      apply launch_browser_KeyError. unfold getitem, field.
      rewrite Hget. simpl. rewrite Hcountries. simpl. rewrite Hcountry. simpl.
      rewrite Ho. simpl. rewrite Hs. simpl. rewrite Hl. simpl. by rewrite Hc. }
  left.
  rewrite (launch_browser_success DEBUG self cfg countries country_cfg o s l c
             Hget Hcountries Hcountry Ho Hs Hl Hc).
  eexists. unfold state_after. simpl. done.
Qed.

Lemma selected_country_is_configured_witness :
  is_Some (Qt.currentIndex (country_combo
             (selector_after sample_configs [BrandPicked 1; BrandPicked 0; CountryPicked 1])))
  ∧ ∃ cfg countries country_cfg,
      get sample_configs "Peugeot" = Some cfg ∧ configs cfg = Some countries
      ∧ get countries "FR" = Some country_cfg.
Proof.
  split; [by eexists|].
  destruct (@selected_country_is_configured ascii_runtime false sample_configs
              [BrandPicked 1; BrandPicked 0; CountryPicked 1])
    as (cfg & countries & country_cfg & Hcfg & Hcountries & Hcountry & _);
    [by eexists|].
  exists cfg, countries, country_cfg. done.
Defined.

(** ** The redirect, from the URL to the code *)

Lemma contains_app (c : ascii) (a b : string) :
  Str.contains c (a +:+ b) = Str.contains c a || Str.contains c b.
Proof.
  induction a as [|x a IH]; [done|].
  rewrite ?app_String. simpl. by rewrite IH, orb_assoc.
Qed.

Lemma forallb_app (p : ascii → bool) (a b : string) :
  Str.forallb p (a +:+ b) = Str.forallb p a && Str.forallb p b.
Proof.
  induction a as [|x a IH]; [done|].
  rewrite ?app_String. simpl. by rewrite IH, andb_assoc.
Qed.

Lemma forallb_not_contains (p : ascii → bool) (c : ascii) (s : string) :
  Str.forallb p s = true → p c = false → Str.contains c s = false.
Proof.
  intros Hall Hc. induction s as [|x s IH]; [done|]. simpl in *.
  apply andb_true_iff in Hall as [Hx Hall]. rewrite IH by done.
  rewrite orb_false_r. unfold Str.eqc. apply bool_decide_eq_false.
  intros ->. congruence.
Qed.

Lemma without_not_contains (cs s : string) (c : ascii) :
  without cs s = true → Str.contains c cs = true → Str.contains c s = false.
Proof.
  intros Hall Hc. eapply forallb_not_contains; [exact Hall|]. simpl. by rewrite Hc.
Qed.

Lemma remove_id (a : ascii) (s : string) :
  Str.contains a s = false → Str.remove a s = s.
Proof.
  induction s as [|x s IH]; [done|]. simpl.
  intros [Hx Hs]%orb_false_iff. rewrite Hx. by rewrite IH.
Qed.

Lemma partition_app (c : ascii) (a b : string) :
  Str.contains c a = false → Str.partition c (a +:+ String c b) = (a, Some b).
Proof.
  induction a as [|x a IH]; simpl.
  - intros _. change ("" +:+ String c b) with (String c b). simpl.
    unfold Str.eqc. by rewrite bool_decide_eq_true_2.
  - intros [Hx Ha]%orb_false_iff. rewrite ?app_String. simpl.
    rewrite Hx. by rewrite IH.
Qed.

Lemma partition_none (c : ascii) (s : string) :
  Str.contains c s = false → Str.partition c s = (s, None).
Proof.
  induction s as [|x s IH]; [done|]. simpl.
  intros [Hx Hs]%orb_false_iff. rewrite Hx. by rewrite IH.
Qed.

Lemma split_app (c : ascii) (a b : string) :
  Str.contains c a = false → Str.split c (a +:+ String c b) = a :: Str.split c b.
Proof.
  induction a as [|x a IH]; simpl.
  - intros _. change ("" +:+ String c b) with (String c b). simpl.
    unfold Str.eqc. by rewrite bool_decide_eq_true_2.
  - intros [Hx Ha]%orb_false_iff. rewrite ?app_String. simpl.
    rewrite Hx. by rewrite IH.
Qed.

Lemma split_none (c : ascii) (s : string) :
  Str.contains c s = false → Str.split c s = [s].
Proof.
  induction s as [|x s IH]; [done|]. simpl.
  intros [Hx Hs]%orb_false_iff. rewrite Hx. by rewrite IH.
Qed.

Lemma splitnetloc_cons (x : ascii) (s : string) :
  urllib.splitnetloc (String x s) =
    if Str.contains x "/?#" then ("", String x s)
    else let '(n, rest) := urllib.splitnetloc s in (String x n, rest).
Proof. reflexivity. Qed.

Lemma splitnetloc_app (hp q : string) :
  Str.contains "?" hp = false → Str.contains "#" hp = false →
  urllib.splitnetloc (hp +:+ String "?" q)
    = ((urllib.splitnetloc hp).1, (urllib.splitnetloc hp).2 +:+ String "?" q).
Proof.
  induction hp as [|x hp IH]; [intros _ _; reflexivity|].
  intros [Hx Hq]%orb_false_iff [Hx' Hh]%orb_false_iff.
  rewrite app_String, !splitnetloc_cons.
  destruct (Str.contains x "/?#") eqn:Hdelim; [reflexivity|].
  rewrite IH by done. by destruct (urllib.splitnetloc hp).
Qed.

Lemma splitnetloc_forallb (p : ascii → bool) (hp : string) :
  Str.forallb p hp = true →
  Str.forallb p (urllib.splitnetloc hp).1 = true
  ∧ Str.forallb p (urllib.splitnetloc hp).2 = true.
Proof.
  induction hp as [|x hp IH]; [done|].
  rewrite splitnetloc_cons. cbn [Str.forallb].
  intros [Hx Hall]%andb_true_iff.
  destruct (Str.contains x "/?#"); cbn [fst snd Str.forallb];
    [by rewrite Hx, Hall|].
  destruct (IH Hall) as [H1 H2]. destruct (urllib.splitnetloc hp).
  cbn [fst snd Str.forallb] in *. by rewrite Hx, H1.
Qed.

Lemma isalpha_facts (c : ascii) :
  Str.isalpha c = true →
  Str.isascii c = true ∧ urllib.c0_control_or_space c = false.
Proof.
  unfold Str.isalpha, Str.isupper, Str.islower, Str.isascii,
    urllib.c0_control_or_space.
  intros Halpha. split.
  - apply N.ltb_lt. apply orb_true_iff in Halpha as [Hc|Hc];
      apply andb_true_iff in Hc as [_ Hc%N.leb_le]; lia.
  - apply N.leb_gt. apply orb_true_iff in Halpha as [Hc|Hc];
      apply andb_true_iff in Hc as [Hc%N.leb_le _]; lia.
Qed.

(** [urlsplit] on [scheme://authority/path?query] *)
Lemma urlsplit_hierarchical `{Runtime} (s hp q : string) :
  valid_scheme s = true →
  Str.forallb Str.isascii hp = true →
  without ("?#[]" +:+ tab_cr_lf) hp = true →
  without ("#" +:+ tab_cr_lf) q = true →
  urllib.urlsplit (s +:+ "://" +:+ hp +:+ String "?" q)
  = Ok {| urllib.split_scheme := Str.lower_ascii s;
          urllib.split_netloc := (urllib.splitnetloc hp).1;
          urllib.split_path := (urllib.splitnetloc hp).2;
          urllib.split_query := q;
          urllib.split_fragment := "" |}.
Proof.
  intros Hs Hascii Hhp Hq.
  destruct s as [|c0 s0]; [done|]. unfold valid_scheme in Hs.
  apply andb_true_iff in Hs as [Halpha Hscheme].
  destruct (isalpha_facts c0 Halpha) as [Hc0 Hspace].
  set (s := String c0 s0) in *.
  assert (∀ c, urllib.scheme_char c = false → Str.contains c
            (s +:+ "://" +:+ hp +:+ String "?" q)
            = Str.contains c "://" || Str.contains c hp
              || Str.eqc c "?" || Str.contains c q) as Hcontains.
  { intros c Hc. rewrite !contains_app.
    rewrite (forallb_not_contains _ c s Hscheme Hc). simpl.
    by rewrite !orb_assoc. }
  assert (urllib.remove_unsafe (s +:+ "://" +:+ hp +:+ String "?" q)
          = s +:+ "://" +:+ hp +:+ String "?" q) as Hunsafe.
  { assert (∀ c, Str.contains c tab_cr_lf = true →
              Str.contains c (s +:+ "://" +:+ hp +:+ String "?" q) = false) as Hno.
    { intros c Hc. rewrite Hcontains.
      - rewrite (without_not_contains _ hp c Hhp), (without_not_contains _ q c Hq);
          [|by rewrite contains_app, Hc, orb_true_r..].
        revert Hc. unfold tab_cr_lf. simpl. unfold Str.eqc.
        repeat case_bool_decide; simplify_eq; done.
      - revert Hc. unfold tab_cr_lf. simpl. unfold Str.eqc.
        repeat case_bool_decide; simplify_eq; done. }
    unfold urllib.remove_unsafe.
    rewrite (remove_id "009") by (by apply Hno).
    rewrite (remove_id "013") by (by apply Hno).
    rewrite (remove_id "010") by (by apply Hno). done. }
  assert (Str.partition ":" (s +:+ "://" +:+ hp +:+ String "?" q)
          = (s, Some ("//" +:+ hp +:+ String "?" q))) as Hcolon.
  { apply (partition_app ":" s). by apply (forallb_not_contains _ _ _ Hscheme). }
  unfold urllib.urlsplit.
  replace (Str.lstrip urllib.c0_control_or_space (s +:+ "://" +:+ hp +:+ String "?" q))
    with (s +:+ "://" +:+ hp +:+ String "?" q)
    by (subst s; rewrite app_String; simpl; by rewrite Hspace).
  rewrite Hunsafe, Hcolon. subst s.
  change ("//" +:+ hp +:+ String "?" q)
    with (String "/" (String "/" (hp +:+ String "?" q))).
  cbv iota beta. rewrite Hc0, Halpha, Hscheme. cbn [andb]. cbv iota beta.
  rewrite splitnetloc_app
    by (eapply without_not_contains; [exact Hhp|reflexivity]).
  destruct (splitnetloc_forallb _ hp Hascii) as [Hn _].
  destruct (splitnetloc_forallb _ hp Hhp) as [Hn' Hr'].
  destruct (urllib.splitnetloc hp) as [n r]. cbn [fst snd] in *.
  assert (urllib.check_netloc n = true) as ->.
  { unfold urllib.check_netloc.
    rewrite (without_not_contains _ n "[" Hn') by reflexivity.
    rewrite (without_not_contains _ n "]" Hn') by reflexivity.
    by rewrite Hn. }
  cbn [negb].
  rewrite (partition_none "#").
  2:{ rewrite contains_app. rewrite (without_not_contains _ r "#" Hr') by reflexivity.
      simpl. by rewrite (without_not_contains _ q "#" Hq). }
  rewrite (partition_app "?")
    by (eapply without_not_contains; [exact Hr'|reflexivity]).
  reflexivity.
Qed.

Lemma app_assoc_string (a b c : string) : (a +:+ b) +:+ c = a +:+ b +:+ c.
Proof. induction a as [|x a IH]; [done|]. by rewrite !app_String, IH. Qed.

Lemma app_empty_r (a : string) : a +:+ "" = a.
Proof. induction a as [|x a IH]; [done|]. by rewrite app_String, IH. Qed.

Lemma forallb_impl (p p' : ascii → bool) (s : string) :
  (∀ c, p c = true → p' c = true) → Str.forallb p s = true → Str.forallb p' s = true.
Proof.
  intros Himpl. induction s as [|x s IH]; [done|]. cbn [Str.forallb].
  intros [Hx Hs]%andb_true_iff. by rewrite (Himpl x Hx), IH.
Qed.

Lemma replace_keeps_out (c a b : ascii) (s : string) :
  Str.eqc c b = false → Str.contains c s = false →
  Str.contains c (Str.replace a b s) = false.
Proof.
  intros Hb. induction s as [|x s IH]; [done|]. simpl.
  intros [Hx Hs]%orb_false_iff. rewrite IH by done.
  destruct (Str.eqc a x); by rewrite ?Hb, ?Hx.
Qed.

Lemma replace_id (a b : ascii) (s : string) :
  Str.contains a s = false → Str.replace a b s = s.
Proof.
  induction s as [|x s IH]; [done|]. simpl.
  intros [Hx Hs]%orb_false_iff. by rewrite Hx, IH.
Qed.

(** The first value of [code] in a query that starts with [code=X]. *)
Lemma code_values_head (X rest : string) :
  X ≠ "" → Str.contains "&" X = false → Str.contains "%" X = false →
  rest = "" ∨ (∃ r, rest = String "&" r) →
  head (code_values ("code=" +:+ X +:+ rest)) = Some (Str.replace "+" " " X).
Proof.
  intros HX Hamp Hpct Hrest.
  assert (urllib.parse_field ("code=" +:+ X) = [("code", Str.replace "+" " " X)])
    as Hfield.
  { unfold urllib.parse_field.
    change ("code=" +:+ X) with (String "c" ("ode" +:+ String "=" X)).
    change (String "c" ("ode" +:+ String "=" X)) with ("code" +:+ String "=" X) at 2.
    rewrite (partition_app "=" "code" X) by reflexivity.
    destruct X as [|x X]; [done|].
    f_equal. f_equal. unfold urllib.unquote.
    by rewrite (replace_keeps_out "%" "+" " " _ eq_refl Hpct). }
  unfold code_values, urllib.parse_qsl.
  destruct Hrest as [->|[r ->]].
  - rewrite app_empty_r, split_none; [|by rewrite contains_app, Hamp].
    rewrite fmap_cons, Hfield. reflexivity.
  - rewrite <- app_assoc_string, split_app; [|by rewrite contains_app, Hamp].
    rewrite fmap_cons, Hfield. reflexivity.
Qed.

Lemma without_weaken (cs cs' s : string) :
  (∀ c, Str.contains c cs' = true → Str.contains c cs = true) →
  without cs s = true → without cs' s = true.
Proof.
  intros Hsub. apply forallb_impl. intros c Hc.
  destruct (Str.contains c cs') eqn:Hc'; [|done]. by rewrite (Hsub c Hc') in Hc.
Qed.

Lemma contains_app_r (c : ascii) (a b : string) :
  Str.contains c b = true → Str.contains c (a +:+ b) = true.
Proof. intros Hb. by rewrite contains_app, Hb, orb_true_r. Qed.

(** A redirect with [?code=X]: the hook refuses it and captures [X], with
    each ['+'] read as a space. *)
Lemma redirect_code_captured `{Runtime} (DEBUG : bool) (browser : OAuthBrowser)
    (hp X rest : string) (nav_type : Qt.NavigationType) (is_main_frame : bool) :
  valid_scheme (page_scheme (page browser)) = true →
  Str.forallb Str.isascii hp = true →
  without ("?#[]" +:+ tab_cr_lf) hp = true →
  X ≠ "" →
  without ("&#%" +:+ tab_cr_lf) X = true →
  rest = "" ∨ (∃ r, rest = String "&" r) →
  without ("#" +:+ tab_cr_lf) rest = true →
  let m := acceptNavigationRequest DEBUG browser
             {| Qt.toString := page_scheme (page browser) +:+ "://" +:+ hp
                                 +:+ "?code=" +:+ X +:+ rest |}
             nav_type is_main_frame in
  returned m = Ok false
  ∧ captures (output m) = [Str.replace "+" " " X]
  ∧ (Str.contains "+" X = false → captures (output m) = [X]).
Proof.
  intros Hs Hascii Hhp HX HXc Hrest Hrestc m. subst m.
  set (s := page_scheme (page browser)) in *.
  set (url := {| Qt.toString := s +:+ "://" +:+ hp +:+ "?code=" +:+ X +:+ rest |}).
  assert (Str.startswith (Qt.toString url) (page_scheme (page browser) +:+ "://") = true)
    as Hstart.
  { apply startswith_spec. exists (hp +:+ "?code=" +:+ X +:+ rest).
    subst url. simpl. by rewrite app_assoc_string. }
  assert (without ("#" +:+ tab_cr_lf) ("code=" +:+ X +:+ rest) = true) as Hq.
  { unfold without. rewrite !forallb_app. apply andb_true_iff. split; [reflexivity|].
    apply andb_true_iff. split; [|exact Hrestc].
    eapply without_weaken; [|exact HXc]. intros c Hc.
    change ("&#%" +:+ tab_cr_lf) with ("&" +:+ "#" +:+ "%" +:+ tab_cr_lf).
    apply contains_app_r. unfold tab_cr_lf in *. simpl in *.
    destruct (Str.eqc c "#"); [done|]. simpl in *. by rewrite Hc, orb_true_r. }
  assert (∃ parsed, urllib.urlparse (Qt.toString url) = Ok parsed
                    ∧ urllib.query parsed = "code=" +:+ X +:+ rest)
    as (parsed & Hparse & Hquery).
  { rewrite urlparse_urlsplit. subst url. cbn [Qt.toString].
    change (s +:+ "://" +:+ hp +:+ "?code=" +:+ X +:+ rest)
      with (s +:+ "://" +:+ hp +:+ String "?" ("code=" +:+ X +:+ rest)).
    rewrite (urlsplit_hierarchical s hp ("code=" +:+ X +:+ rest) Hs Hascii Hhp Hq).
    eexists. split; reflexivity. }
  rewrite (accept_matching DEBUG browser url nav_type is_main_frame parsed Hstart Hparse).
  unfold returned, output. cbn [fst snd]. rewrite Hquery.
  rewrite captures_app, captures_debug_print.
  rewrite (code_values_head X rest HX);
    [|by eapply without_not_contains; [exact HXc|]..|done].
  split; [done|]. split; [done|]. intros Hplus. simpl. by rewrite replace_id.
Qed.


(** X8: the hook gives back the code of a redirect.  For a page whose
    scheme is a URI scheme, a URL made of the scheme, ["://"], an ASCII
    authority and path without ['?'], ['#'], brackets, tab, CR and LF, then
    ["?code="], a code that is not empty and has no ['&'], ['#'], ['%'],
    tab, CR or LF, and then nothing or further ['&'] fields, is refused,
    and the code captured is the code of the URL with each ['+'] read as a
    space: the code itself when it has no ['+']. *)
Theorem hook_recovers_the_code `{Runtime} (DEBUG : bool) (browser : OAuthBrowser)
    (hp X rest : string) (nav_type : Qt.NavigationType) (is_main_frame : bool) :
  valid_scheme (page_scheme (page browser)) = true →
  Str.forallb Str.isascii hp = true →
  without ("?#[]" +:+ tab_cr_lf) hp = true →
  X ≠ "" →
  without ("&#%" +:+ tab_cr_lf) X = true →
  rest = "" ∨ (∃ r, rest = String "&" r) →
  without ("#" +:+ tab_cr_lf) rest = true →
  let m := acceptNavigationRequest DEBUG browser
             {| Qt.toString := page_scheme (page browser) +:+ "://" +:+ hp
                                 +:+ "?code=" +:+ X +:+ rest |}
             nav_type is_main_frame in
  returned m = Ok false
  ∧ captures (output m) = [Str.replace "+" " " X]
  ∧ (Str.contains "+" X = false → captures (output m) = [X]).
Proof. apply redirect_code_captured. Qed.

Lemma hook_recovers_the_code_witness :
  valid_scheme "mymap" = true
  ∧ without ("&#%" +:+ tab_cr_lf) "8f3a+Zq-_1" = true
  ∧ captures (output (acceptNavigationRequest (H := ascii_runtime) true
               (OAuthBrowser_init "https://idp/authorize" "mymap")
               {| Qt.toString := "mymap" +:+ "://" +:+ "oauth2redirect/fr"
                                   +:+ "?code=" +:+ "8f3a+Zq-_1" +:+ "&state=xyz" |}
               Qt.NavigationTypeRedirect true)) = ["8f3a Zq-_1"].
Proof.
  split; [reflexivity|]. split; [reflexivity|].
  refine (proj1 (proj2 (@hook_recovers_the_code ascii_runtime true
    (OAuthBrowser_init "https://idp/authorize" "mymap")
    "oauth2redirect/fr" "8f3a+Zq-_1" "&state=xyz" Qt.NavigationTypeRedirect true
    _ _ _ _ _ _ _))); try reflexivity.
  - discriminate.
  - right. by eexists.
Defined.

(** X9: the browser that [launch_browser] opens catches the redirect that
    its authorization URL asks for.  When the brand's scheme is a URI
    scheme and the country code in lower case is ASCII without ['?'], ['#'],
    brackets, tab, CR and LF, the URL loaded carries
    [redirect_uri=<scheme>://oauth2redirect/<country>], and a navigation of
    the new page to that URI with [?code=] and a code without ['&'], ['#'],
    ['%'], ['+'], tab, CR and LF is refused and shows exactly that code. *)
Theorem advertised_redirect_is_intercepted `{Runtime} (DEBUG : bool)
    (self : BrandCountrySelector) (cfg : VendorConfig)
    (countries : dict CountryConfig) (country_cfg : CountryConfig)
    (oauth_url_ scheme_ locale_code client_id_ X : string)
    (nav_type : Qt.NavigationType) (is_main_frame : bool) :
  let country := Qt.currentText (country_combo self) in
  let redirect_uri := scheme_ +:+ "://oauth2redirect/" +:+ str_lower country in
  get (selector_configs self) (Qt.currentText (brand_combo self)) = Some cfg →
  configs cfg = Some countries →
  get countries country = Some country_cfg →
  oauth_url cfg = Some oauth_url_ →
  scheme cfg = Some scheme_ →
  locale country_cfg = Some locale_code →
  client_id country_cfg = Some client_id_ →
  valid_scheme scheme_ = true →
  Str.forallb Str.isascii (str_lower country) = true →
  without ("?#[]" +:+ tab_cr_lf) (str_lower country) = true →
  X ≠ "" →
  without ("&#%+" +:+ tab_cr_lf) X = true →
  ∃ browser,
    browser_window (state_after (launch_browser DEBUG self)) = Some browser
    ∧ (∃ before after,
         Qt.toString (loaded_url browser)
           = before +:+ "&redirect_uri=" +:+ redirect_uri +:+ after)
    ∧ returned (acceptNavigationRequest DEBUG browser
                  {| Qt.toString := redirect_uri +:+ "?code=" +:+ X |}
                  nav_type is_main_frame) = Ok false
    ∧ captures (output (acceptNavigationRequest DEBUG browser
                  {| Qt.toString := redirect_uri +:+ "?code=" +:+ X |}
                  nav_type is_main_frame)) = [X].
Proof.
  intros country redirect_uri Hcfg Hcountries Hcountry Ho Hs Hl Hc
    Hscheme Hascii Hplain HX HXc.
  rewrite (launch_browser_success DEBUG self cfg countries country_cfg
             oauth_url_ scheme_ locale_code client_id_
             Hcfg Hcountries Hcountry Ho Hs Hl Hc).
  eexists. unfold state_after. cbn [fst snd browser_window].
  split; [reflexivity|]. cbn [loaded_url Qt.toString]. split.
  { exists (oauth_url_ +:+ "/am/oauth2/authorize?client_id=" +:+ client_id_
              +:+ "&response_type=code"),
           ("&scope=openid%20profile%20email&locale=" +:+ locale_code).
    unfold auth_url_of. subst redirect_uri. fold country.
    by rewrite !app_assoc_string. }
  assert (without ("&#%" +:+ tab_cr_lf) X = true) as HXc'.
  { eapply without_weaken; [|exact HXc]. intros c.
    unfold tab_cr_lf. simpl. intros Hin.
    destruct (Str.eqc c "&"), (Str.eqc c "#"), (Str.eqc c "%"), (Str.eqc c "+"),
      (Str.eqc c "009"), (Str.eqc c "013"), (Str.eqc c "010");
      solve [reflexivity | discriminate Hin]. }
  destruct (redirect_code_captured DEBUG
    {| page := {| page_scheme := scheme_ |};
       loaded_url :=
         {| Qt.toString :=
              auth_url_of oauth_url_ client_id_ scheme_ country locale_code |};
       popup := None;
       browser_visible := true |}
    ("oauth2redirect/" +:+ str_lower country) X "" nav_type is_main_frame)
    as (Hr & _ & Hcap); try done.
  - by left.
  - cbn [page page_scheme] in Hr, Hcap. rewrite app_empty_r in Hr, Hcap.
    subst redirect_uri. rewrite !app_assoc_string.
    rewrite !app_assoc_string in Hr, Hcap. split; [exact Hr|]. apply Hcap.
    eapply without_not_contains; [exact HXc|reflexivity].
Qed.


Lemma advertised_redirect_is_intercepted_witness :
  valid_scheme "mymap" = true
  ∧ ∃ browser,
      browser_window (state_after (launch_browser (H := ascii_runtime) false
                        (state_after (BrandCountrySelector_init sample_configs))))
        = Some browser
      ∧ captures (output (acceptNavigationRequest (H := ascii_runtime) false browser
                   {| Qt.toString :=
                        ("mymap" +:+ "://oauth2redirect/" +:+ Str.lower_ascii "BE")
                          +:+ "?code=" +:+ "0a1b-2c3d" |}
                   Qt.NavigationTypeRedirect true)) = ["0a1b-2c3d"].
Proof.
  split; [reflexivity|].
  destruct (@advertised_redirect_is_intercepted ascii_runtime false
    (state_after (BrandCountrySelector_init sample_configs))
    {| oauth_url := Some "https://idpcvs.peugeot.com"; scheme := Some "mymap";
       configs := Some [("FR", {| locale := Some "fr-FR"; client_id := Some "1eebc2d5" |});
                        ("BE", {| locale := Some "fr-BE"; client_id := Some "1eebc2d6" |})] |}
    [("FR", {| locale := Some "fr-FR"; client_id := Some "1eebc2d5" |});
     ("BE", {| locale := Some "fr-BE"; client_id := Some "1eebc2d6" |})]
    {| locale := Some "fr-BE"; client_id := Some "1eebc2d6" |}
    "https://idpcvs.peugeot.com" "mymap" "fr-BE" "1eebc2d6" "0a1b-2c3d"
    Qt.NavigationTypeRedirect true)
    as (browser & Hwindow & _ & _ & Hcaptured); try reflexivity.
  - discriminate.
  - exists browser. split; [exact Hwindow | exact Hcaptured].
Defined.

(** ** Language and debugging *)

Lemma split_not_nil (c : ascii) (s : string) : Str.split c s ≠ [].
Proof.
  induction s as [|x s IH]; [done|]. simpl.
  destruct (Str.eqc c x); [done|]. by destruct (Str.split c s).
Qed.

Lemma item0_split (c : ascii) (s : string) :
  ∃ part, Str.item0 (Str.split c s) = Ok part.
Proof.
  pose proof (split_not_nil c s). destruct (Str.split c s); [done|]. by eexists.
Qed.

(** X10: [detect_language] answers a language that [STRINGS] has, whatever
    the locale and the environment; the only exception that can leave it is
    one of [getlocale] that is not an [Exception]. *)
Theorem detect_language_is_supported `{Runtime} (getlocale : result (option string))
    (environ : dict string) :
  match detect_language getlocale environ with
  | Ok lang => lang ∈ keys STRINGS ∧ is_Some (get STRINGS lang)
  | Raise e => getlocale = Raise e ∧ is_Exception e = false
  end.
Proof.
  unfold detect_language.
  destruct getlocale as [name|e]; [|destruct (is_Exception e) eqn:He; [|done]];
    cbn [mbind result_bind];
    match goal with
    | |- context [Str.item0 (Str.split ?c ?s)] =>
        destruct (item0_split c s) as [part ->]
    end;
    cbn [mbind result_bind mret result_ret];
    (case_bool_decide as Hin;
      [by split; [|apply keys_get_Some] | by split; [set_solver|]]).
Qed.
